(** * django_twilio.decorators: the [twilio_view] request gate

    A shallow embedding of [src/django_twilio/decorators.py] and the
    properties of its per-request decision flow: forgery protection
    (method check and signature verification), blacklist check, call of the
    wrapped view and coercion of what the view returns. *)

From Stdlib Require Import ZArith Ascii String List Bool Lia.
From stdpp Require Import base gmap strings list.

Local Open Scope string_scope.
Local Open Scope list_scope.

(** ** Python values and Django objects *)

(** [django.http.HttpResponse]: the status code, the body and the headers
    the decorator sets. *)
Inductive Content :=
| Text (s : string)
| Bytes (b : list Byte.byte).

Record HttpResponseT := mkHttpResponse {
  status_code : Z;
  content : Content;
  headers : gmap string string
}.

Inductive Exn :=
| AssertionError
| AttributeError
| KeyError
| OtherException (name : string).

(** [django.http.HttpRequest], as far as [decorated_view] reads it.
    [request.method] and [request.META] are plain attributes; the method is
    the string Django's handlers put there.  [request.GET], [request.POST]
    and [request.build_absolute_uri()] run Django code when they are
    evaluated and either return or raise (a body that does not parse, a
    [Host] header that is not allowed): each is given by its result. *)
Record HttpRequestT := mkHttpRequest {
  method : string;
  GET : gmap string string + Exn;
  POST : gmap string string + Exn;
  META : gmap string string;
  build_absolute_uri : string + Exn
}.

Definition Exn_eqb (a b : Exn) : bool :=
  match a, b with
  | AssertionError, AssertionError => true
  | AttributeError, AttributeError => true
  | KeyError, KeyError => true
  | OtherException x, OtherException y => String.eqb x y
  | _, _ => false
  end.

(** [django.conf.settings]: [DEBUG] always exists (Django's global
    settings define it); the two [DJANGO_TWILIO_*] attributes are optional
    and read with [getattr(settings, name, default)]. *)
Record Settings := mkSettings {
  DEBUG : bool;
  DJANGO_TWILIO_FORGERY_PROTECTION : option bool;
  DJANGO_TWILIO_BLACKLIST_CHECK : option bool
}.

Definition getattr {A} (attr : option A) (default : A) : A :=
  match attr with
  | Some v => v
  | None => default
  end.

(** [x in l] on a list of strings. *)
Definition in_ (x : string) (l : list string) : bool :=
  existsb (String.eqb x) l.

(** [', '.join(parts)] *)
Fixpoint join (sep : string) (parts : list string) : string :=
  match parts with
  | [] => ""
  | [p] => p
  | p :: rest => (p ++ sep ++ join sep rest)%string
  end.

(** Iterating a Python string yields its one-character strings. *)
Fixpoint chars (s : string) : list string :=
  match s with
  | EmptyString => []
  | String c rest => String c EmptyString :: chars rest
  end.

Definition DEFAULT_CONTENT_TYPE : string := "text/html; charset=utf-8".

(** [HttpResponse(content, content_type=ct)] *)
Definition HttpResponse (c : Content) (content_type : string) : HttpResponseT :=
  mkHttpResponse 200 c {[ "Content-Type" := content_type ]}.

(** [HttpResponseForbidden()] *)
Definition HttpResponseForbidden : HttpResponseT :=
  mkHttpResponse 403 (Bytes []) {[ "Content-Type" := DEFAULT_CONTENT_TYPE ]}.

(** [HttpResponseNotAllowed(permitted_methods)] sets
    [Allow = ', '.join(permitted_methods)].  Line 106 passes the request's
    method, a string, so the join runs over its characters. *)
Definition HttpResponseNotAllowed (permitted_methods : string) : HttpResponseT :=
  mkHttpResponse 405 (Bytes [])
    (<[ "Allow" := join ", " (chars permitted_methods) ]>
       {[ "Content-Type" := DEFAULT_CONTENT_TYPE ]}).

(** [twilio.util.RequestValidator]: the constructor stores
    [token.encode("utf-8")], which raises [AttributeError] on [None]. *)
Record RequestValidatorT := mkRequestValidator { token : string }.

Section Gate.

(** [twilio.twiml.Verb] and its [str()]. *)
Variable Verb : Type.
Variable str : Verb -> string.

(** What a view can be called with or return. *)
Inductive PyVal :=
| PyNone
| PyText (s : string)
| PyBytes (b : list Byte.byte)
| PyVerb (v : Verb)
| PyRequest (r : HttpRequestT)
| PyResponse (r : HttpResponseT)
| PyObject (repr : string).

(** [*args, **kwargs] *)
Record Args := mkArgs {
  args : list PyVal;
  kwargs : list (string * PyVal)
}.

(** Calls that leave [decorated_view], each with what it was given and
    what it answered, in the order they are made. *)
Inductive Event :=
| EvValidate (tok uri : string) (params : gmap string string)
    (signature : string) (ok : bool)
| EvBlacklist (request : HttpRequestT) (resp : option HttpResponseT)
| EvHandler (request : HttpRequestT) (a : Args) (result : PyVal + Exn).

(** ** Statements with early return and exceptions

    A statement runs on the store the collaborators act on (the database
    behind the blacklist, whatever the view touches) and ends normally, with
    a [return], or with an exception; it also yields the calls it made. *)
Variable Store : Type.

Inductive Outcome (A : Type) :=
| Normal (a : A)
| Return (v : PyVal)
| Raise (e : Exn).
Arguments Normal {A} a.
Arguments Return {A} v.
Arguments Raise {A} e.

Definition M (A : Type) : Type := Store -> Outcome A * Store * list Event.

Definition pure {A} (a : A) : M A := fun s => (Normal a, s, []).
Definition pass : M unit := pure tt.
Definition return_ {A} (v : PyVal) : M A := fun s => (Return v, s, []).
Definition raise {A} (e : Exn) : M A := fun s => (Raise e, s, []).

Definition bind {A B} (m : M A) (k : A -> M B) : M B :=
  fun s =>
    match m s with
    | (Normal a, s1, t1) =>
        match k a s1 with
        | (o, s2, t2) => (o, s2, t1 ++ t2)
        end
    | (Return v, s1, t1) => (Return v, s1, t1)
    | (Raise e, s1, t1) => (Raise e, s1, t1)
    end.

Notation "x <- m ;; k" := (bind m (fun x => k))
  (at level 100, m at next level, right associativity).
Notation "m ;; k" := (bind m (fun _ => k))
  (at level 100, right associativity).

(** [if c: body] *)
Definition when (c : bool) (body : M unit) : M unit :=
  if c then body else pass.

(** [try: body / except excs: handler] *)
Definition try_except {A} (body : M A) (excs : list Exn) (handler : M A) : M A :=
  fun s =>
    match body s with
    | (Raise e, s1, t1) =>
        if existsb (Exn_eqb e) excs then
          match handler s1 with
          | (o, s2, t2) => (o, s2, t1 ++ t2)
          end
        else (Raise e, s1, t1)
    | r => r
    end.

(** A function body seen from its caller: [return v] yields [v], falling
    off the end yields [None]. *)
Definition call (body : M unit) : M PyVal :=
  fun s =>
    match body s with
    | (Normal _, s1, t1) => (Normal PyNone, s1, t1)
    | (Return v, s1, t1) => (Normal v, s1, t1)
    | (Raise e, s1, t1) => (Raise e, s1, t1)
    end.

(** [assert isinstance(request, HttpRequest)] *)
Definition assert_isinstance_HttpRequest (request : PyVal) : M HttpRequestT :=
  match request with
  | PyRequest r => pure r
  | _ => raise AssertionError
  end.

(** Evaluating an expression that returns or raises. *)
Definition result_of {A} (r : A + Exn) : M A :=
  match r with
  | inl a => pure a
  | inr e => raise e
  end.

(** [d[key]] on a dict *)
Definition getitem (d : gmap string string) (key : string) : M string :=
  match d !! key with
  | Some v => pure v
  | None => raise KeyError
  end.

(** [RequestValidator(token)] *)
Definition RequestValidator (tok : option string) : M RequestValidatorT :=
  match tok with
  | Some t => pure (mkRequestValidator t)
  | None => raise AttributeError
  end.

(** ** Collaborators *)

(** [TWILIO_AUTH_TOKEN] of [django_twilio.settings]; [None] when the
    project configures no token. *)
Variable TWILIO_AUTH_TOKEN : option string.

(** [RequestValidator(token).validate(uri, params, signature)], as a
    function of the token as well. *)
Variable validate_sig : string -> string -> gmap string string -> string -> bool.

(** [get_blacklisted_response] of [django_twilio.utils]: [None], or the
    response to send to a blacklisted caller. *)
Variable blacklisted_response : HttpRequestT -> Store -> option HttpResponseT * Store.

(** The wrapped view [f], called as [f(request, *args, **kwargs)]: it
    returns a value or raises, and may change the store. *)
Variable f : HttpRequestT -> Args -> Store -> (PyVal + Exn) * Store.

Variable settings : Settings.

Definition validate (v : RequestValidatorT) (uri : string)
    (params : gmap string string) (signature : string) : M bool :=
  fun s =>
    let ok := validate_sig (token v) uri params signature in
    (Normal ok, s, [EvValidate (token v) uri params signature ok]).

Definition get_blacklisted_response (request : HttpRequestT) : M (option HttpResponseT) :=
  fun s =>
    match blacklisted_response request s with
    | (r, s1) => (Normal r, s1, [EvBlacklist request r])
    end.

Definition call_f (request : HttpRequestT) (a : Args) : M PyVal :=
  fun s =>
    match f request a s with
    | (inl v, s1) => (Normal v, s1, [EvHandler request a (inl v)])
    | (inr e, s1) => (Raise e, s1, [EvHandler request a (inr e)])
    end.

(** ** [decorated_view] (lines 91-141) *)

(** Lines 98-102 and 124-128: the two settings, with their defaults. *)
Definition use_forgery_protection : bool :=
  getattr (DJANGO_TWILIO_FORGERY_PROTECTION settings) (negb (DEBUG settings)).

Definition check_blacklist : bool :=
  getattr (DJANGO_TWILIO_BLACKLIST_CHECK settings) true.

Definition decorated_view (request : PyVal) (a : Args) : M PyVal :=
  call (
    (* 93 *)
    request <- assert_isinstance_HttpRequest request ;;
    (* 98-103 *)
    when use_forgery_protection (
      (* 105-106 *)
      when (negb (in_ (method request) ["GET"; "POST"]))
        (return_ (PyResponse (HttpResponseNotAllowed (method request)))) ;;
      (* 109-114 *)
      inputs <- try_except (
          validator <- RequestValidator TWILIO_AUTH_TOKEN ;;
          url <- result_of (build_absolute_uri request) ;;
          signature <- getitem (META request) "HTTP_X_TWILIO_SIGNATURE" ;;
          pure (validator, url, signature))
        [AttributeError; KeyError]
        (return_ (PyResponse HttpResponseForbidden)) ;;
      let '(validator, url, signature) := inputs in
      (* 116-121 *)
      if String.eqb (method request) "POST" then
        params <- result_of (POST request) ;;
        ok <- validate validator url params signature ;;
        when (negb ok) (return_ (PyResponse HttpResponseForbidden))
      else if String.eqb (method request) "GET" then
        params <- result_of (GET request) ;;
        ok <- validate validator url params signature ;;
        when (negb ok) (return_ (PyResponse HttpResponseForbidden))
      else pass
    ) ;;
    (* 124-132; a response object is truthy, [None] is not *)
    when check_blacklist (
      blacklisted_resp <- get_blacklisted_response request ;;
      match blacklisted_resp with
      | Some r => return_ (PyResponse r)
      | None => pass
      end
    ) ;;
    (* 134 *)
    response <- call_f request a ;;
    (* 136-141 *)
    match response with
    | PyText s => return_ (PyResponse (HttpResponse (Text s) "application/xml"))
    | PyBytes b => return_ (PyResponse (HttpResponse (Bytes b) "application/xml"))
    | PyVerb v => return_ (PyResponse (HttpResponse (Text (str v)) "application/xml"))
    | _ => return_ response
    end).

(** Lines 123-141 on their own: what a request runs into once it got past
    forgery protection, or met none. *)
Definition blacklist_then_view (request : HttpRequestT) (a : Args) : M PyVal :=
  call (
    when check_blacklist (
      blacklisted_resp <- get_blacklisted_response request ;;
      match blacklisted_resp with
      | Some r => return_ (PyResponse r)
      | None => pass
      end
    ) ;;
    response <- call_f request a ;;
    match response with
    | PyText s => return_ (PyResponse (HttpResponse (Text s) "application/xml"))
    | PyBytes b => return_ (PyResponse (HttpResponse (Bytes b) "application/xml"))
    | PyVerb v => return_ (PyResponse (HttpResponse (Text (str v)) "application/xml"))
    | _ => return_ response
    end).

(** ** Vocabulary of the properties *)

(** [request.method in ['GET', 'POST']] *)
Definition method_allowed (request : HttpRequestT) : bool :=
  in_ (method request) ["GET"; "POST"].

(** The parameter set that belongs to the request's method, as evaluating
    it turns out. *)
Definition params_of (request : HttpRequestT) : gmap string string + Exn :=
  if String.eqb (method request) "POST" then POST request else GET request.

(** The exceptions that lines 113-114 catch. *)
Definition caught (e : Exn) : bool :=
  existsb (Exn_eqb e) [AttributeError; KeyError].

(** A token is configured, the absolute URI and the parameters of the
    request's method evaluate, the request carries a signature, and the
    validator accepts it. *)
Definition verified (request : HttpRequestT) : bool :=
  match TWILIO_AUTH_TOKEN, build_absolute_uri request,
        META request !! "HTTP_X_TWILIO_SIGNATURE", params_of request with
  | Some t, inl u, Some g, inl p => validate_sig t u p g
  | _, _, _, _ => false
  end.

(** What the calls of a run tell about forgery protection: it was applied
    when the run ended before any call or called the validator first, and
    skipped when the first call is the blacklist lookup or the view. *)
Definition verification_first (tr : list Event) : bool :=
  match tr with
  | [] => true
  | e :: _ => match e with EvValidate _ _ _ _ _ => true | _ => false end
  end.

(** The request gets past lines 103-121. *)
Definition passes_forgery_protection (request : HttpRequestT) : bool :=
  negb use_forgery_protection || (method_allowed request && verified request).

(** The blacklist answers with a response for this request. *)
Definition denied (request : HttpRequestT) (s : Store) : bool :=
  match fst (blacklisted_response request s) with
  | Some _ => true
  | None => false
  end.

(** The position of a call in the flow of [decorated_view]. *)
Definition stage (e : Event) : nat :=
  match e with
  | EvValidate _ _ _ _ _ => 1
  | EvBlacklist _ _ => 2
  | EvHandler _ _ _ => 3
  end.

Fixpoint increasing (l : list nat) : bool :=
  match l with
  | x :: (y :: _) as rest => (x <? y)%nat && increasing rest
  | _ => true
  end.

Definition is_validate (e : Event) : bool :=
  match e with EvValidate _ _ _ _ _ => true | _ => false end.

Definition is_handler (e : Event) : bool :=
  match e with EvHandler _ _ _ => true | _ => false end.

(** [isinstance(v, HttpRequest)] *)
Definition is_HttpRequest (v : PyVal) : bool :=
  match v with PyRequest _ => true | _ => false end.

(** What lines 136-141 make of the value the view returned. *)
Definition coerced (v : PyVal) : PyVal :=
  match v with
  | PyText t => PyResponse (HttpResponse (Text t) "application/xml")
  | PyBytes b => PyResponse (HttpResponse (Bytes b) "application/xml")
  | PyVerb vb => PyResponse (HttpResponse (Text (str vb)) "application/xml")
  | _ => v
  end.

Definition outcome_of (result : PyVal + Exn) : Outcome PyVal :=
  match result with
  | inl v => Normal (coerced v)
  | inr e => Raise e
  end.

(** The store the view finds when it is called: the one the blacklist
    lookup left when the check is enabled, the initial one otherwise. *)
Definition store_before_view (request : HttpRequestT) (s : Store) : Store :=
  if check_blacklist then snd (blacklisted_response request s) else s.

(** [_twilio_function_view(f)] (lines 87-143) returns [decorated_view]; to
    whoever calls it as a view (a decorator applied on top of it, say) it
    returns a value or raises, and leaves a store. *)
Definition _twilio_function_view (request : HttpRequestT) (a : Args) (s : Store)
    : (PyVal + Exn) * Store :=
  match decorated_view (PyRequest request) a s with
  | (Normal v, s1, _) => (inl v, s1)
  | (Return v, s1, _) => (inl v, s1)
  | (Raise e, s1, _) => (inr e, s1)
  end.

(** ** The paths through [decorated_view]

    [START -> method check -> signature verification -> deny-list check ->
    handler -> coercion -> END], with the early exits.  Each constructor is
    one path: the condition under which it is taken, and the outcome, store
    and calls it ends with. *)

(** Getting past lines 103-121, with the calls made on the way. *)
Inductive forgery_passed (request : HttpRequestT) : list Event -> Prop :=
| fp_off :
    use_forgery_protection = false ->
    forgery_passed request []
| fp_verified t u g p :
    use_forgery_protection = true ->
    method_allowed request = true ->
    TWILIO_AUTH_TOKEN = Some t ->
    build_absolute_uri request = inl u ->
    META request !! "HTTP_X_TWILIO_SIGNATURE" = Some g ->
    params_of request = inl p ->
    validate_sig t u p g = true ->
    forgery_passed request [EvValidate t u p g true].

(** Getting past lines 123-132, with the calls made and the store left. *)
Inductive blacklist_passed (request : HttpRequestT) (s : Store)
    : list Event -> Store -> Prop :=
| bl_off :
    check_blacklist = false ->
    blacklist_passed request s [] s
| bl_clear s1 :
    check_blacklist = true ->
    blacklisted_response request s = (None, s1) ->
    blacklist_passed request s [EvBlacklist request None] s1.

Inductive gate_path (a : Args) (s : Store)
    : PyVal -> Outcome PyVal * Store * list Event -> Prop :=
| path_not_request request :
    is_HttpRequest request = false ->
    gate_path a s request (Raise AssertionError, s, [])
| path_method_not_allowed request :
    use_forgery_protection = true ->
    method_allowed request = false ->
    gate_path a s (PyRequest request)
      (Normal (PyResponse (HttpResponseNotAllowed (method request))), s, [])
| path_no_inputs request :
    use_forgery_protection = true ->
    method_allowed request = true ->
    TWILIO_AUTH_TOKEN = None \/
      (exists e, build_absolute_uri request = inr e /\ caught e = true) \/
      (exists u, build_absolute_uri request = inl u /\
         META request !! "HTTP_X_TWILIO_SIGNATURE" = None) ->
    gate_path a s (PyRequest request)
      (Normal (PyResponse HttpResponseForbidden), s, [])
| path_uri_raises request t e :
    use_forgery_protection = true ->
    method_allowed request = true ->
    TWILIO_AUTH_TOKEN = Some t ->
    build_absolute_uri request = inr e ->
    caught e = false ->
    gate_path a s (PyRequest request) (Raise e, s, [])
| path_params_raise request t u g e :
    use_forgery_protection = true ->
    method_allowed request = true ->
    TWILIO_AUTH_TOKEN = Some t ->
    build_absolute_uri request = inl u ->
    META request !! "HTTP_X_TWILIO_SIGNATURE" = Some g ->
    params_of request = inr e ->
    gate_path a s (PyRequest request) (Raise e, s, [])
| path_bad_signature request t u g p :
    use_forgery_protection = true ->
    method_allowed request = true ->
    TWILIO_AUTH_TOKEN = Some t ->
    build_absolute_uri request = inl u ->
    META request !! "HTTP_X_TWILIO_SIGNATURE" = Some g ->
    params_of request = inl p ->
    validate_sig t u p g = false ->
    gate_path a s (PyRequest request)
      (Normal (PyResponse HttpResponseForbidden), s,
       [EvValidate t u p g false])
| path_denied request pre r s1 :
    forgery_passed request pre ->
    check_blacklist = true ->
    blacklisted_response request s = (Some r, s1) ->
    gate_path a s (PyRequest request)
      (Normal (PyResponse r), s1, pre ++ [EvBlacklist request (Some r)])
| path_view request pre mid s1 result s2 :
    forgery_passed request pre ->
    blacklist_passed request s mid s1 ->
    f request a s1 = (result, s2) ->
    gate_path a s (PyRequest request)
      (outcome_of result, s2, pre ++ mid ++ [EvHandler request a result]).

End Gate.

Arguments PyNone {Verb}.
Arguments PyText {Verb} s.
Arguments PyBytes {Verb} b.
Arguments PyVerb {Verb} v.
Arguments PyRequest {Verb} r.
Arguments PyResponse {Verb} r.
Arguments PyObject {Verb} repr.
Arguments mkArgs {Verb} args kwargs.
Arguments EvValidate {Verb} tok uri params signature ok.
Arguments EvBlacklist {Verb} request resp.
Arguments EvHandler {Verb} request a result.
Arguments Normal {Verb A} a.
Arguments Return {Verb A} v.
Arguments Raise {Verb A} e.
Arguments decorated_view {Verb} str {Store} TWILIO_AUTH_TOKEN validate_sig
  blacklisted_response f settings request a.
Arguments blacklist_then_view {Verb} str {Store} blacklisted_response f
  settings request a.
Arguments coerced {Verb} str v.
Arguments outcome_of {Verb} str result.
Arguments forgery_passed {Verb} TWILIO_AUTH_TOKEN validate_sig settings
  request _.
Arguments blacklist_passed {Verb Store} blacklisted_response settings
  request s _ _.
Arguments gate_path {Verb} str {Store} TWILIO_AUTH_TOKEN validate_sig
  blacklisted_response f settings a s _ _.
Arguments store_before_view {Store} blacklisted_response settings request s.
Arguments _twilio_function_view {Verb} str {Store} TWILIO_AUTH_TOKEN
  validate_sig blacklisted_response f settings request a s.
Arguments denied {Store} blacklisted_response request s.
Arguments verification_first {Verb} tr.
Arguments stage {Verb} e.
Arguments is_validate {Verb} e.
Arguments is_handler {Verb} e.
Arguments is_HttpRequest {Verb} v.

(** ** The signature verifier *)

Module Verifier.
Section Verifier.

(** Modelled from the spec: the verifier is [twilio.util.RequestValidator],
    which is not among the sources.  Section 4.1: a keyed hash (HMAC over a
    cryptographic hash function, base64-encoded) of the message under the
    secret; the hash itself is left open. *)
Variable keyed_hash_b64 : string -> string -> string.

Fixpoint insert_by_name (p : string * string) (l : list (string * string))
    : list (string * string) :=
  match l with
  | [] => [p]
  | q :: rest =>
      if String.leb (fst p) (fst q) then p :: l
      else q :: insert_by_name p rest
  end.

Definition sort_by_name (l : list (string * string)) : list (string * string) :=
  foldr insert_by_name [] l.

(** Modelled from the spec: "name-then-value concatenation per parameter,
    parameters sorted by name". *)
Definition serialize (params : gmap string string) : string :=
  foldr (fun p acc => (fst p ++ snd p ++ acc)%string) ""
    (sort_by_name (map_to_list params)).

(** Modelled from the spec: "concatenate the URL with the parameters
    serialized in a canonical [...] order [...] to form a message; compute a
    keyed hash [...] of the message using the secret as key". *)
Definition sign (secret url : string) (params : gmap string string) : string :=
  keyed_hash_b64 secret (url ++ serialize params)%string.

(** Modelled from the spec: "a constant-time-safe equality check [...] with
    no early-exit on first mismatching byte": every position is compared
    and the results are accumulated. *)
Definition secure_compare (a b : string) : bool :=
  if Nat.eqb (String.length a) (String.length b) then
    fold_left (fun acc p => acc && Ascii.eqb (fst p) (snd p))
      (combine (list_ascii_of_string a) (list_ascii_of_string b)) true
  else false.

Definition is_empty (s : string) : bool :=
  match s with
  | EmptyString => true
  | String _ _ => false
  end.

(** Modelled from the spec: "secret (non-empty; if empty/missing,
    verification must fail, not crash)"; "missing or empty claimed signature
    => false"; otherwise "compare the result to the claimed signature";
    "Output: boolean match result". *)
Definition Verifier (secret : option string) (url : string)
    (params : gmap string string) (signature : option string) : bool :=
  match secret, signature with
  | Some k, Some g =>
      if is_empty k then false
      else if is_empty g then false
      else secure_compare (sign k url params) g
  | _, _ => false
  end.

End Verifier.

(** Replace the byte at position [i] of a signature. *)
Fixpoint mutate (i : nat) (c : ascii) (s : string) : string :=
  match s, i with
  | EmptyString, _ => EmptyString
  | String _ rest, O => String c rest
  | String x rest, S j => String x (mutate j c rest)
  end.

End Verifier.

(** ** A concrete deployment, for the examples *)

Module Demo.

Inductive Verb :=
| Reject
| Message (text : string).

Definition str (v : Verb) : string :=
  match v with
  | Reject => "<Response><Reject /></Response>"
  | Message t => ("<Response><Message>" ++ t ++ "</Message></Response>")%string
  end.

(** The store: the message bodies the view has handled so far. *)
Definition Store : Type := list string.

(** A stand-in for the keyed hash. *)
Definition keyed_hash_b64 (key msg : string) : string :=
  (key ++ "/" ++ msg)%string.

Definition validate_sig (tok uri : string) (params : gmap string string)
    (signature : string) : bool :=
  Verifier.Verifier keyed_hash_b64 (Some tok) uri params (Some signature).

Definition TWILIO_AUTH_TOKEN : option string := Some "abc123".

Definition reject_response : HttpResponseT :=
  HttpResponse (Text (str Reject)) "application/xml".

(** The caller +15550000000 is blacklisted. *)
Definition blacklisted_response (request : HttpRequestT) (s : Store)
    : option HttpResponseT * Store :=
  match params_of request with
  | inl params =>
      match params !! "From" with
      | Some frm =>
          if String.eqb frm "+15550000000" then (Some reject_response, s)
          else (None, s)
      | None => (None, s)
      end
  | inr _ => (None, s)
  end.

(** A view that records the body and answers with TwiML text. *)
Definition view (request : HttpRequestT) (a : Args Verb) (s : Store)
    : (PyVal Verb + Exn) * Store :=
  (inl (PyText "<Response/>"),
   match params_of request with
   | inl params => default "" (params !! "Body")
   | inr _ => ""
   end :: s).

(** A view that fails with a [KeyError] of its own. *)
Definition broken_view (request : HttpRequestT) (a : Args Verb) (s : Store)
    : (PyVal Verb + Exn) * Store :=
  (inr KeyError, s).

Definition production : Settings := mkSettings false None None.
Definition debug : Settings := mkSettings true None None.

Definition no_args : Args Verb := mkArgs [] [].

Definition sms_url : string := "https://example.com/sms".

Definition sms_params : gmap string string :=
  <[ "From" := "+15551234567" ]> {[ "Body" := "hi" ]}.

Definition blacklisted_params : gmap string string :=
  <[ "From" := "+15550000000" ]> {[ "Body" := "hi" ]}.

Definition signed (m : string) (params : gmap string string) : HttpRequestT :=
  mkHttpRequest m
    (inl (if String.eqb m "POST" then ∅ else params))
    (inl (if String.eqb m "POST" then params else ∅))
    {[ "HTTP_X_TWILIO_SIGNATURE" :=
         Verifier.sign keyed_hash_b64 "abc123" sms_url params ]}
    (inl sms_url).

Definition unsigned (m : string) (params : gmap string string) : HttpRequestT :=
  mkHttpRequest m
    (inl (if String.eqb m "POST" then ∅ else params))
    (inl (if String.eqb m "POST" then params else ∅))
    ∅
    (inl sms_url).

Definition forged (m : string) (params : gmap string string) : HttpRequestT :=
  mkHttpRequest m
    (inl (if String.eqb m "POST" then ∅ else params))
    (inl (if String.eqb m "POST" then params else ∅))
    {[ "HTTP_X_TWILIO_SIGNATURE" := "bm90IGEgc2lnbmF0dXJl" ]}
    (inl sms_url).

(** The requests of the examples. *)
Definition sms_post : HttpRequestT := signed "POST" sms_params.
Definition blacklisted_post : HttpRequestT := signed "POST" blacklisted_params.
Definition forged_get : HttpRequestT := forged "GET" sms_params.
Definition unsigned_get : HttpRequestT := unsigned "GET" sms_params.
Definition unsigned_put : HttpRequestT := unsigned "PUT" sms_params.
Definition blacklisted_put : HttpRequestT := unsigned "PUT" blacklisted_params.

(** An unsigned GET whose [Host] header Django does not allow, and a signed
    POST whose body Django cannot parse. *)
Definition bad_host_get : HttpRequestT :=
  mkHttpRequest "GET" (inl sms_params) (inl ∅) ∅
    (inr (OtherException "DisallowedHost")).

Definition bad_body_post : HttpRequestT :=
  mkHttpRequest "POST" (inl ∅) (inr (OtherException "MultiPartParserError"))
    {[ "HTTP_X_TWILIO_SIGNATURE" :=
         Verifier.sign keyed_hash_b64 "abc123" sms_url sms_params ]}
    (inl sms_url).

Definition twiml : HttpResponseT :=
  HttpResponse (Text "<Response/>") "application/xml".

(** A call on an empty store. *)
Definition gate (st : Settings) (request : PyVal Verb)
    : Outcome Verb (PyVal Verb) * Store * list (Event Verb) :=
  decorated_view str TWILIO_AUTH_TOKEN validate_sig blacklisted_response view
    st request no_args [].

End Demo.

(** * Properties of [decorated_view] *)

Section GateProperties.

Context {Verb : Type} (str : Verb -> string) {Store : Type}.
Variable TWILIO_AUTH_TOKEN : option string.
Variable validate_sig : string -> string -> gmap string string -> string -> bool.
Variable blacklisted_response : HttpRequestT -> Store -> option HttpResponseT * Store.
Variable f : HttpRequestT -> Args Verb -> Store -> (PyVal Verb + Exn) * Store.
Variable settings : Settings.

Local Notation "'gate'" :=
  (decorated_view str TWILIO_AUTH_TOKEN validate_sig blacklisted_response f settings).
Local Notation "'tail'" :=
  (blacklist_then_view str blacklisted_response f settings).

Lemma method_allowed_true (request : HttpRequestT) :
  method_allowed request = true ->
  String.eqb (method request) "POST" = true \/
  (String.eqb (method request) "POST" = false /\
   String.eqb (method request) "GET" = true).
Proof.
  unfold method_allowed, in_; cbn [existsb].
  destruct (String.eqb (method request) "POST"),
           (String.eqb (method request) "GET"); cbn; intuition congruence.
Qed.

Lemma method_allowed_false (request : HttpRequestT) :
  method_allowed request = false ->
  String.eqb (method request) "POST" = false /\
  String.eqb (method request) "GET" = false.
Proof.
  unfold method_allowed, in_; cbn [existsb].
  destruct (String.eqb (method request) "POST"),
           (String.eqb (method request) "GET"); cbn; intuition congruence.
Qed.

(** Unfold the statements of the function body, and nothing of the data. *)
Ltac gate_red :=
  cbv beta iota zeta delta
    [decorated_view blacklist_then_view call bind when try_except
     assert_isinstance_HttpRequest RequestValidator getitem validate
     get_blacklisted_response call_f return_ raise pass pure result_of
     existsb Exn_eqb app negb token].

Ltac fold_method request :=
  change (in_ (method request) ["GET"; "POST"]) with (method_allowed request).

(** Split on what is left to decide, innermost first. *)
Ltac gate_destruct :=
  repeat (gate_red;
          match goal with
          | |- context [match ?x with _ => _ end] =>
              lazymatch x with
              | context [match _ with _ => _ end] => fail
              | _ => destruct x
              end
          end);
  gate_red; try reflexivity.

(** *** The outcome of every path through the function *)

Lemma gate_not_request request a s :
  is_HttpRequest request = false ->
  gate request a s = (Raise AssertionError, s, []).
Proof. destruct request; intros H; try discriminate H; reflexivity. Qed.

Lemma gate_method_not_allowed request a s :
  use_forgery_protection settings = true ->
  method_allowed request = false ->
  gate (PyRequest request) a s =
    (Normal (PyResponse (HttpResponseNotAllowed (method request))), s, []).
Proof.
  intros Hfp Hm. gate_red. fold_method request. rewrite Hfp, Hm.
  reflexivity.
Qed.

Lemma gate_no_token request a s :
  use_forgery_protection settings = true ->
  method_allowed request = true ->
  TWILIO_AUTH_TOKEN = None ->
  gate (PyRequest request) a s =
    (Normal (PyResponse HttpResponseForbidden), s, []).
Proof.
  intros Hfp Hm Ht. gate_red. fold_method request. rewrite Hfp, Hm, Ht.
  reflexivity.
Qed.

Lemma gate_uri_caught request a s e :
  use_forgery_protection settings = true ->
  method_allowed request = true ->
  build_absolute_uri request = inr e ->
  caught e = true ->
  gate (PyRequest request) a s =
    (Normal (PyResponse HttpResponseForbidden), s, []).
Proof.
  intros Hfp Hm Hu Hc. gate_red. fold_method request. rewrite Hfp, Hm, Hu.
  destruct TWILIO_AUTH_TOKEN; [| reflexivity].
  destruct e; try discriminate Hc; reflexivity.
Qed.

Lemma gate_no_signature request a s u :
  use_forgery_protection settings = true ->
  method_allowed request = true ->
  build_absolute_uri request = inl u ->
  META request !! "HTTP_X_TWILIO_SIGNATURE" = None ->
  gate (PyRequest request) a s =
    (Normal (PyResponse HttpResponseForbidden), s, []).
Proof.
  intros Hfp Hm Hu Hg. gate_red. fold_method request. rewrite Hfp, Hm, Hu, Hg.
  destruct TWILIO_AUTH_TOKEN; reflexivity.
Qed.

Lemma gate_uri_raises request a s t e :
  use_forgery_protection settings = true ->
  method_allowed request = true ->
  TWILIO_AUTH_TOKEN = Some t ->
  build_absolute_uri request = inr e ->
  caught e = false ->
  gate (PyRequest request) a s = (Raise e, s, []).
Proof.
  intros Hfp Hm Ht Hu Hc. gate_red. fold_method request.
  rewrite Hfp, Hm, Ht, Hu.
  destruct e; try discriminate Hc; reflexivity.
Qed.

Lemma gate_params_raise request a s t u g e :
  use_forgery_protection settings = true ->
  method_allowed request = true ->
  TWILIO_AUTH_TOKEN = Some t ->
  build_absolute_uri request = inl u ->
  META request !! "HTTP_X_TWILIO_SIGNATURE" = Some g ->
  params_of request = inr e ->
  gate (PyRequest request) a s = (Raise e, s, []).
Proof.
  intros Hfp Hm Ht Hu Hg Hp. gate_red. fold_method request.
  rewrite Hfp, Hm, Ht, Hu, Hg. gate_red. revert Hp. unfold params_of.
  destruct (method_allowed_true _ Hm) as [HP | [HP HG]];
    rewrite HP, ?HG; intros Hp; rewrite Hp; reflexivity.
Qed.

Lemma gate_bad_signature request a s t u g p :
  use_forgery_protection settings = true ->
  method_allowed request = true ->
  TWILIO_AUTH_TOKEN = Some t ->
  build_absolute_uri request = inl u ->
  META request !! "HTTP_X_TWILIO_SIGNATURE" = Some g ->
  params_of request = inl p ->
  validate_sig t u p g = false ->
  gate (PyRequest request) a s =
    (Normal (PyResponse HttpResponseForbidden), s,
     [EvValidate t u p g false]).
Proof.
  intros Hfp Hm Ht Hu Hg Hp Hv. gate_red. fold_method request.
  rewrite Hfp, Hm, Ht, Hu, Hg. gate_red. revert Hp. unfold params_of.
  destruct (method_allowed_true _ Hm) as [HP | [HP HG]];
    rewrite HP, ?HG; intros Hp; rewrite Hp; gate_red; rewrite Hv;
    reflexivity.
Qed.

Lemma gate_good_signature request a s t u g p :
  use_forgery_protection settings = true ->
  method_allowed request = true ->
  TWILIO_AUTH_TOKEN = Some t ->
  build_absolute_uri request = inl u ->
  META request !! "HTTP_X_TWILIO_SIGNATURE" = Some g ->
  params_of request = inl p ->
  validate_sig t u p g = true ->
  gate (PyRequest request) a s =
    (let '(out, s1, tr) := tail request a s in
     (out, s1, EvValidate t u p g true :: tr)).
Proof.
  intros Hfp Hm Ht Hu Hg Hp Hv. gate_red. fold_method request.
  rewrite Hfp, Hm, Ht, Hu, Hg. gate_red. revert Hp. unfold params_of.
  destruct (method_allowed_true _ Hm) as [HP | [HP HG]];
    rewrite HP, ?HG; intros Hp; rewrite Hp; gate_red; rewrite Hv;
    gate_destruct.
Qed.

Lemma gate_unprotected request a s :
  use_forgery_protection settings = false ->
  gate (PyRequest request) a s = tail request a s.
Proof. intros Hfp. gate_red. rewrite Hfp. gate_destruct. Qed.

Lemma tail_denied request a s r s1 :
  check_blacklist settings = true ->
  blacklisted_response request s = (Some r, s1) ->
  tail request a s =
    (Normal (PyResponse r), s1, [EvBlacklist request (Some r)]).
Proof. intros Hc Hb. gate_red. rewrite Hc, Hb. reflexivity. Qed.

Lemma tail_view request a s mid s1 result s2 :
  blacklist_passed blacklisted_response settings request s mid s1 ->
  f request a s1 = (result, s2) ->
  tail request a s =
    (outcome_of str result, s2, mid ++ [EvHandler request a result]).
Proof.
  intros Hb Hf. gate_red.
  destruct Hb as [Hc | s1 Hc Hb]; rewrite Hc, ?Hb; gate_red; rewrite Hf;
    destruct result as [[] | e]; reflexivity.
Qed.

(** Every call of [decorated_view] takes one of the paths. *)
Lemma gate_takes_a_path request a s :
  gate_path str TWILIO_AUTH_TOKEN validate_sig blacklisted_response f settings
    a s request (gate request a s).
Proof.
  destruct (is_HttpRequest request) eqn:Hreq.
  2: { rewrite gate_not_request by done. by constructor. }
  destruct request as [| | | | request | |]; try discriminate Hreq.
  assert (Htail : forall pre,
    forgery_passed TWILIO_AUTH_TOKEN validate_sig settings request pre ->
    gate_path str TWILIO_AUTH_TOKEN validate_sig blacklisted_response f
      settings a s (PyRequest request)
      (let '(out, s1, tr) := tail request a s in (out, s1, pre ++ tr))).
  { intros pre Hpre.
    destruct (check_blacklist settings) eqn:Hc.
    - destruct (blacklisted_response request s) as [[r |] s1] eqn:Hb.
      + rewrite (tail_denied _ _ _ _ _ Hc Hb). by eapply path_denied.
      + destruct (f request a s1) as [result s2] eqn:Hf.
        assert (Hbp : blacklist_passed (Verb:=Verb) blacklisted_response settings request
                        s [EvBlacklist request None] s1) by by constructor.
        rewrite (tail_view _ _ _ _ _ _ _ Hbp Hf). by eapply path_view.
    - destruct (f request a s) as [result s2] eqn:Hf.
      assert (Hbp : blacklist_passed (Verb:=Verb) blacklisted_response settings request
                      s [] s) by by constructor.
      rewrite (tail_view _ _ _ _ _ _ _ Hbp Hf). by eapply path_view. }
  destruct (use_forgery_protection settings) eqn:Hfp.
  2: { rewrite gate_unprotected by done.
       specialize (Htail [] ltac:(by constructor)).
       destruct (tail request a s) as [[out s1] tr]. exact Htail. }
  destruct (method_allowed request) eqn:Hm.
  2: { rewrite gate_method_not_allowed by done. by constructor. }
  assert (Ht : TWILIO_AUTH_TOKEN = None \/
                exists t, TWILIO_AUTH_TOKEN = Some t)
    by (destruct TWILIO_AUTH_TOKEN; eauto).
  destruct Ht as [Ht | [t Ht]].
  { rewrite gate_no_token by done. apply path_no_inputs; auto. }
  destruct (build_absolute_uri request) as [u | e] eqn:Hu.
  2: { destruct (caught e) eqn:Hc.
       - rewrite (gate_uri_caught _ _ _ _ Hfp Hm Hu Hc).
         apply path_no_inputs; eauto.
       - rewrite (gate_uri_raises _ _ _ _ _ Hfp Hm Ht Hu Hc).
         by eapply path_uri_raises. }
  destruct (META request !! "HTTP_X_TWILIO_SIGNATURE") as [g |] eqn:Hg.
  2: { rewrite (gate_no_signature _ _ _ _ Hfp Hm Hu Hg).
       apply path_no_inputs; eauto. }
  destruct (params_of request) as [p | e] eqn:Hp.
  2: { rewrite (gate_params_raise _ _ _ _ _ _ _ Hfp Hm Ht Hu Hg Hp).
       by eapply path_params_raise. }
  destruct (validate_sig t u p g) eqn:Hv.
  - rewrite (gate_good_signature _ _ _ _ _ _ _ Hfp Hm Ht Hu Hg Hp Hv).
    specialize (Htail _ ltac:(by eapply fp_verified)).
    destruct (tail request a s) as [[out s1] tr]. exact Htail.
  - rewrite (gate_bad_signature _ _ _ _ _ _ _ Hfp Hm Ht Hu Hg Hp Hv).
    by eapply path_bad_signature.
Qed.

(** Case analysis on the path a call has taken. *)
Ltac paths H :=
  let P := fresh "P" in
  lazymatch type of H with
  | decorated_view _ _ _ _ _ _ ?r ?a ?s = _ =>
      pose proof (gate_takes_a_path r a s) as P
  end;
  rewrite H in P;
  inversion P; subst; clear P;
  repeat match goal with
         | X : forgery_passed _ _ _ _ _ |- _ => inversion X; subst; clear X
         | X : blacklist_passed _ _ _ _ _ _ |- _ => inversion X; subst; clear X
         end;
  cbn [app] in *.

(** *** The claims *)

(** C1. The checks run in a fixed order: signature verification (when
    forgery protection is on) before the blacklist check, the blacklist
    check before the wrapped view, each at most once; behind a mandatory
    verification lies a successful validation, behind an enabled blacklist
    check a negative answer.  A request that fails the method check, the
    verification or the blacklist check never reaches the view: the trace
    has no call of it, and the store is the one the call started with or the
    one the blacklist lookup left. *)
Theorem checks_run_in_order request a s out s1 tr :
  gate request a s = (out, s1, tr) ->
  increasing (map stage tr) = true /\
  (use_forgery_protection settings = true ->
   forall e, e ∈ tr -> (2 <= stage e)%nat ->
   exists t u p g, head tr = Some (EvValidate t u p g true)) /\
  (check_blacklist settings = true ->
   forall e, e ∈ tr -> stage e = 3%nat ->
   exists r, EvBlacklist r None ∈ tr) /\
  (forall request',
   request = PyRequest request' ->
   (use_forgery_protection settings = true /\
    method_allowed request' = false) \/
   (use_forgery_protection settings = true /\
    verified TWILIO_AUTH_TOKEN validate_sig request' = false) \/
   (check_blacklist settings = true /\
    denied blacklisted_response request' s = true) ->
   (forall e, e ∈ tr -> is_handler e = false) /\
   (s1 = s \/ s1 = snd (blacklisted_response request' s))).
Proof.
  intros H. paths H.
  all: split; [reflexivity |].
  all: split; [intros Hfp ev He Hst | ].
  all: try (set_unfold; destruct_or?; subst; cbn in Hst; try lia; eauto; congruence).
  all: split; [intros Hc ev He Hst | ].
  all: try (set_unfold; destruct_or?; subst; cbn in Hst; try lia; eauto; congruence).
  all: intros request' Hreq Hrej; simplify_eq.
  all: unfold verified, denied in Hrej.
  all: destruct Hrej as [[? Hrej] | [[? Hrej] | [? Hrej]]];
    repeat match goal with
           | E : ?x = _ |- _ =>
               tryif constr_eq E Hrej then fail else rewrite E in Hrej
           end;
    cbn in Hrej; try congruence.
  all: (split;
        [ intros ev He; set_unfold; destruct_or?; subst; done
        | first [ by left
                | right;
                  by match goal with
                     | E : blacklisted_response _ _ = _ |- _ => rewrite E
                     end ] ]).
Qed.

(** C2, amended.  With forgery protection on and a GET or POST request, a
    missing auth token ends the call with [HttpResponseForbidden] (403), and
    so does a missing signature header when [request.build_absolute_uri()],
    which line 111 evaluates first, returns or raises one of the two
    exceptions that lines 113-114 catch: no exception, no call of the
    validator, the blacklist or the view, and the store untouched. *)
Theorem missing_inputs_are_forbidden request a s :
  use_forgery_protection settings = true ->
  method_allowed request = true ->
  TWILIO_AUTH_TOKEN = None \/
    (META request !! "HTTP_X_TWILIO_SIGNATURE" = None /\
     forall e, build_absolute_uri request = inr e -> caught e = true) ->
  gate (PyRequest request) a s =
    (Normal (PyResponse HttpResponseForbidden), s, []) /\
  status_code HttpResponseForbidden = 403%Z.
Proof.
  intros Hfp Hm [Ht | [Hg Hu]]; split; try reflexivity.
  - by apply gate_no_token.
  - destruct (build_absolute_uri request) as [u | e] eqn:E.
    + by eapply gate_no_signature.
    + eapply gate_uri_caught; eauto.
Qed.

(** C3. With forgery protection on, a request whose method is neither GET
    nor POST ends with [HttpResponseNotAllowed] (405), whatever the token,
    the signature header and the validator are; nothing has been called by
    then, neither the validator nor the blacklist. *)
Theorem other_methods_are_not_allowed request a s :
  use_forgery_protection settings = true ->
  method request <> "GET" ->
  method request <> "POST" ->
  gate (PyRequest request) a s =
    (Normal (PyResponse (HttpResponseNotAllowed (method request))), s, []) /\
  status_code (HttpResponseNotAllowed (method request)) = 405%Z.
Proof.
  intros Hfp HG HP. split; [| reflexivity].
  apply gate_method_not_allowed; [done |].
  unfold method_allowed, in_; cbn [existsb].
  apply String.eqb_neq in HG, HP. by rewrite HG, HP.
Qed.

(** C4. Whether a request meets forgery protection is decided by the
    explicit [DJANGO_TWILIO_FORGERY_PROTECTION] setting when there is one,
    and by the negation of [DEBUG] otherwise.  Enforcement is read off the
    run: it either ends before any call or calls the validator first, a
    request with another method than GET and POST gets the 405, and the
    blacklist and the view are reached by verified GET and POST requests
    only.  Without enforcement the run is that of lines 123-141 alone, and
    starts with the blacklist lookup or the view. *)
Theorem enforcement_follows_the_settings request a s out s1 tr :
  gate (PyRequest request) a s = (out, s1, tr) ->
  (forall b,
   DJANGO_TWILIO_FORGERY_PROTECTION settings = Some b ->
   verification_first tr = b) /\
  (DJANGO_TWILIO_FORGERY_PROTECTION settings = None ->
   verification_first tr = negb (DEBUG settings)) /\
  (verification_first tr = true ->
   (method_allowed request = false ->
    out = Normal (PyResponse (HttpResponseNotAllowed (method request))) /\
    tr = []) /\
   (forall ev, ev ∈ tr -> (2 <= stage ev)%nat ->
    method_allowed request = true /\
    verified TWILIO_AUTH_TOKEN validate_sig request = true)) /\
  (verification_first tr = false ->
   tail request a s = (out, s1, tr)).
Proof.
  intros H.
  assert (Hfirst : verification_first tr = use_forgery_protection settings).
  { paths H; try discriminate; cbn; congruence. }
  rewrite Hfirst. unfold use_forgery_protection at 1 2, getattr.
  split; [by intros b -> |]. split; [by intros -> |].
  split.
  - intros Hfp. split.
    + intros Hm. rewrite gate_method_not_allowed in H by done.
      by simplify_eq.
    + intros ev Hin Hst. unfold verified.
      paths H; try congruence.
      all: try (set_unfold; destruct_or?; subst; cbn in Hst; lia).
      all: repeat match goal with
                  | E : _ = _ |- _ =>
                      lazymatch type of E with
                      | decorated_view _ _ _ _ _ _ _ _ _ = _ => fail
                      | _ => rewrite E
                      end
                  end; done.
  - intros Hfp. by rewrite <- gate_unprotected.
Qed.

(** C5, amended.  With forgery protection off, a request of any method, signed
    or not, goes straight to lines 123-141: the validator is not called, the
    blacklist is asked first when its check is enabled, and the view is
    called unless the check is enabled and the blacklist answers with a
    response. *)
Theorem unprotected_requests_go_to_the_blacklist request a s out s1 tr :
  use_forgery_protection settings = false ->
  gate (PyRequest request) a s = (out, s1, tr) ->
  tail request a s = (out, s1, tr) /\
  (forall e, e ∈ tr -> is_validate e = false) /\
  (check_blacklist settings = true ->
   head tr =
     Some (EvBlacklist request (fst (blacklisted_response request s)))) /\
  ((exists result, last tr = Some (EvHandler request a result)) <->
   ~ (check_blacklist settings = true /\
      denied blacklisted_response request s = true)).
Proof.
  intros Hfp H. split; [by rewrite <- gate_unprotected |].
  paths H; try congruence.
  all: unfold denied.
  all: repeat match goal with
              | E : blacklisted_response _ _ = _ |- _ => rewrite E
              end; cbn.
  all: split; [intros e He; set_unfold; destruct_or?; subst; done |].
  all: split; [try done; congruence |].
  all: split; [try (intros _; intros [? ?]; congruence); intros [? [=]] |].
  all: try (intros Hn; eauto; destruct Hn; done).
Qed.

(** C6. With forgery protection on, the validator is called at most once,
    with the configured token, the absolute URI, the signature header and the
    parameters of the request's own method: [request.GET] for a GET,
    [request.POST] for a POST.  It is called whenever the method is allowed
    and token and header are there, unless evaluating the URI or the
    parameters raises, which ends the call before anything is called; when
    it answers [False] the call ends with [HttpResponseForbidden] (403) and
    nothing else happens. *)
Theorem validator_gets_the_parameters_of_the_method request a s out s1 tr :
  use_forgery_protection settings = true ->
  gate (PyRequest request) a s = (out, s1, tr) ->
  (forall t u p g ok,
   EvValidate t u p g ok ∈ tr ->
   (method request = "GET" /\ GET request = inl p \/
    method request = "POST" /\ POST request = inl p) /\
   TWILIO_AUTH_TOKEN = Some t /\
   build_absolute_uri request = inl u /\
   META request !! "HTTP_X_TWILIO_SIGNATURE" = Some g /\
   ok = validate_sig t u p g) /\
  (length (List.filter is_validate tr) <= 1)%nat /\
  (forall t g,
   method_allowed request = true ->
   TWILIO_AUTH_TOKEN = Some t ->
   META request !! "HTTP_X_TWILIO_SIGNATURE" = Some g ->
   match build_absolute_uri request, params_of request with
   | inl u, inl p =>
       head tr = Some (EvValidate t u p g (validate_sig t u p g))
   | inl u, inr e => out = Raise e /\ tr = []
   | inr e, _ =>
       out = (if caught e then Normal (PyResponse HttpResponseForbidden)
              else Raise e) /\ tr = []
   end) /\
  (forall t u p g,
   EvValidate t u p g false ∈ tr ->
   out = Normal (PyResponse HttpResponseForbidden) /\
   status_code HttpResponseForbidden = 403%Z /\
   tr = [EvValidate t u p g false] /\
   s1 = s).
Proof.
  intros Hfp H.
  assert (Hparams : forall p,
            method_allowed request = true ->
            params_of request = inl p ->
            method request = "GET" /\ GET request = inl p \/
            method request = "POST" /\ POST request = inl p).
  { intros p Hm. unfold params_of.
    destruct (method_allowed_true _ Hm) as [HP | [HP HG]]; rewrite HP.
    - right. by apply String.eqb_eq in HP.
    - left. by apply String.eqb_eq in HG. }
  split; [| split; [| split]].
  - intros t u p g ok Hin. paths H; try congruence.
    all: set_unfold; destruct_or?; simplify_eq; eauto 10.
  - paths H; cbn; lia.
  - intros t' g' Hm' Ht' Hg'.
    paths H; try congruence; destruct_or?;
      repeat match goal with
             | X : exists _, _ |- _ => destruct X
             end;
      destruct_and?.
    all: repeat match goal with
                | E : _ = _ |- _ =>
                    lazymatch type of E with
                    | decorated_view _ _ _ _ _ _ _ _ _ = _ => fail
                    | _ => rewrite E
                    end
                end.
    all: try congruence.
    all: try (split; congruence).
    all: simplify_eq; cbn; try congruence.
    all: repeat case_match; try (split; congruence); congruence.
  - intros t u p g Hin. paths H; try congruence.
    all: set_unfold; destruct_or?; simplify_eq; done.
Qed.

(** C7. Whatever value the wrapped view returns: text or bytes come back as
    a 200 [HttpResponse] with that very body and content type
    [application/xml]; a [Verb] comes back the same way with [str(verb)] as
    the body; any other value is returned as it is. *)
Theorem view_results_are_coerced request a s out s1 tr request' a' v :
  gate request a s = (out, s1, tr) ->
  EvHandler request' a' (inl v) ∈ tr ->
  match v with
  | PyText t =>
      exists r, out = Normal (PyResponse r) /\ status_code r = 200%Z /\
        content r = Text t /\
        headers r !! "Content-Type" = Some "application/xml"
  | PyBytes b =>
      exists r, out = Normal (PyResponse r) /\ status_code r = 200%Z /\
        content r = Bytes b /\
        headers r !! "Content-Type" = Some "application/xml"
  | PyVerb vb =>
      exists r, out = Normal (PyResponse r) /\ status_code r = 200%Z /\
        content r = Text (str vb) /\
        headers r !! "Content-Type" = Some "application/xml"
  | _ => out = Normal v
  end.
Proof.
  intros H Hin. paths H.
  all: set_unfold; destruct_or?; simplify_eq.
  all: destruct v; cbn; try reflexivity.
  all: eexists; split; [reflexivity |]; repeat split.
Qed.

(** C8, amended.  [DJANGO_TWILIO_BLACKLIST_CHECK] defaults to [True].  The
    blacklist is asked only when the check is enabled, and for a request that
    got past forgery protection (because it is off, or because the request
    verified) it is asked exactly when the check is enabled.  When it
    answers with a response, that response is what the call returns, the
    lookup is the last thing that happened, and the view was not called. *)
Theorem blacklist_is_asked_when_enabled request a s out s1 tr :
  gate (PyRequest request) a s = (out, s1, tr) ->
  (DJANGO_TWILIO_BLACKLIST_CHECK settings = None ->
   check_blacklist settings = true) /\
  (forall b, DJANGO_TWILIO_BLACKLIST_CHECK settings = Some b ->
   check_blacklist settings = b) /\
  (forall r resp,
   EvBlacklist r resp ∈ tr ->
   check_blacklist settings = true /\ r = request /\
   resp = fst (blacklisted_response request s)) /\
  (passes_forgery_protection TWILIO_AUTH_TOKEN validate_sig settings request
     = true ->
   (check_blacklist settings = true <->
    exists resp, EvBlacklist request resp ∈ tr)) /\
  (forall r resp,
   EvBlacklist r (Some resp) ∈ tr ->
   out = Normal (PyResponse resp) /\
   last tr = Some (EvBlacklist r (Some resp)) /\
   s1 = snd (blacklisted_response request s) /\
   forall e, e ∈ tr -> is_handler e = false).
Proof.
  intros H.
  split; [unfold check_blacklist; by intros -> |].
  split; [unfold check_blacklist; by intros b -> |].
  unfold passes_forgery_protection, verified.
  paths H; try discriminate; destruct_or?;
    repeat match goal with
           | X : exists _, _ |- _ => destruct X
           end;
    destruct_and?.
  all: repeat match goal with
              | E : _ = _ |- _ =>
                  lazymatch type of E with
                  | decorated_view _ _ _ _ _ _ _ _ _ = _ => fail
                  | _ => rewrite E
                  end
              end; cbn.
  all: split;
    [ intros r0 resp Hin; set_unfold; destruct_or?; simplify_eq; done |].
  all: split;
    [ intros Hp;
      first
        [ discriminate Hp
        | destruct TWILIO_AUTH_TOKEN; discriminate Hp
        | split;
          [ intros Hc; first [discriminate Hc | eexists; solve [repeat constructor]]
          | intros [resp Hin]; set_unfold; destruct_or?; simplify_eq; done ] ]
    |].
  all: intros r0 resp Hin; set_unfold; destruct_or?; simplify_eq.
  all: repeat split; try done.
  all: intros ev He; set_unfold; destruct_or?; subst; done.
Qed.

(** C10. Called on anything but an [HttpRequest], [decorated_view] raises
    [AssertionError] at once: no response, no call of the validator, the
    blacklist or the view, and the store untouched. *)
Theorem non_requests_fail_the_assertion request a s :
  (forall r, request <> PyRequest r) ->
  gate request a s = (Raise AssertionError, s, []).
Proof.
  intros Hreq. apply gate_not_request.
  destruct request; try reflexivity. by destruct (Hreq r).
Qed.

(** *** Further properties of [decorated_view] *)

Lemma gate_view_path request a s pre mid s1 result s2 :
  forgery_passed TWILIO_AUTH_TOKEN validate_sig settings request pre ->
  blacklist_passed blacklisted_response settings request s mid s1 ->
  f request a s1 = (result, s2) ->
  gate (PyRequest request) a s =
    (outcome_of str result, s2, pre ++ mid ++ [EvHandler request a result]).
Proof.
  intros Hpre Hmid Hf.
  destruct Hpre as [Hfp | t u g p Hfp Hm Ht Hu Hg Hp Hv].
  - rewrite gate_unprotected by done. by eapply tail_view.
  - rewrite (gate_good_signature _ _ _ _ _ _ _ Hfp Hm Ht Hu Hg Hp Hv).
    by rewrite (tail_view _ _ _ _ _ _ _ Hmid Hf).
Qed.

Lemma passes_forgery_protection_inv request :
  passes_forgery_protection TWILIO_AUTH_TOKEN validate_sig settings request
    = true ->
  exists pre,
    forgery_passed (Verb:=Verb) TWILIO_AUTH_TOKEN validate_sig settings
      request pre.
Proof.
  unfold passes_forgery_protection. intros Hp.
  destruct (use_forgery_protection settings) eqn:Hfp.
  2: { eexists. by apply fp_off. }
  cbn in Hp. apply andb_true_iff in Hp as [Hm Hv]. unfold verified in Hv.
  assert (Ht : TWILIO_AUTH_TOKEN = None \/
                exists t, TWILIO_AUTH_TOKEN = Some t)
    by (destruct TWILIO_AUTH_TOKEN; eauto).
  destruct Ht as [Ht | [t Ht]]; rewrite Ht in Hv; [discriminate |].
  destruct (build_absolute_uri request) as [u | e] eqn:Hu; [| discriminate].
  destruct (META request !! "HTTP_X_TWILIO_SIGNATURE") as [g |] eqn:Hg;
    [| discriminate].
  destruct (params_of request) as [p | e] eqn:Hp; [| discriminate].
  eexists. by eapply fp_verified.
Qed.

Lemma not_denied_inv request s :
  check_blacklist settings = false \/
    denied blacklisted_response request s = false ->
  exists mid,
    blacklist_passed (Verb:=Verb) blacklisted_response settings request s mid
      (store_before_view blacklisted_response settings request s).
Proof.
  unfold denied, store_before_view. intros Hd.
  destruct (check_blacklist settings) eqn:Hc.
  2: { eexists. by apply bl_off. }
  destruct Hd as [Hd | Hd]; [discriminate |].
  destruct (blacklisted_response request s) as [[r |] s1] eqn:Hb;
    [discriminate |].
  eexists. by apply bl_clear.
Qed.

(** X1. A request that gets past forgery protection (it is off, or the
    method is GET or POST and the signature verifies) and that the blacklist
    does not answer (the check is off, or the lookup returns [None]) reaches
    the view: the view is called once, last, with the request and the
    arguments of the call, on the store the blacklist lookup left; its value
    comes back coerced, its exception comes back as it is, and its store is
    the final one. *)
Theorem accepted_requests_reach_the_view request a s :
  passes_forgery_protection TWILIO_AUTH_TOKEN validate_sig settings request
    = true ->
  check_blacklist settings = false \/
    denied blacklisted_response request s = false ->
  exists pre,
    gate (PyRequest request) a s =
      (outcome_of str
         (fst (f request a
                 (store_before_view blacklisted_response settings request s))),
       snd (f request a
              (store_before_view blacklisted_response settings request s)),
       pre ++
       [EvHandler request a
          (fst (f request a
                  (store_before_view blacklisted_response settings request s)))])
    /\ forall e, e ∈ pre -> is_handler e = false.
Proof.
  intros Hp Hd.
  destruct (passes_forgery_protection_inv _ Hp) as [pre Hpre].
  destruct (not_denied_inv _ _ Hd) as [mid Hmid].
  destruct (f request a
              (store_before_view blacklisted_response settings request s))
    as [result s2] eqn:Hf.
  exists (pre ++ mid). split.
  - rewrite (gate_view_path _ _ _ _ _ _ _ _ Hpre Hmid Hf).
    by rewrite <- app_assoc.
  - intros e He. apply elem_of_app in He as [He | He].
    + destruct Hpre; set_unfold; destruct_or?; subst; done.
    + inversion Hmid; subst; set_unfold; destruct_or?; subst; done.
Qed.

(** X2. The view is called at most once per call, and only with the
    request and the arguments [decorated_view] was called with; its call is
    the last thing that happens, it runs on the store the blacklist lookup
    left (the initial one when the check is off), and the store it leaves is
    the final one. *)
Theorem the_view_is_called_once_with_the_original_arguments
    request a s out s1 tr :
  gate request a s = (out, s1, tr) ->
  (length (List.filter is_handler tr) <= 1)%nat /\
  (forall r' a' result,
   EvHandler r' a' result ∈ tr ->
   request = PyRequest r' /\ a' = a /\
   f r' a (store_before_view blacklisted_response settings r' s)
     = (result, s1) /\
   last tr = Some (EvHandler r' a' result)).
Proof.
  intros H. unfold store_before_view. paths H.
  all: split; [cbn; lia |].
  all: intros r' a' res Hin; set_unfold; destruct_or?; simplify_eq.
  all: repeat match goal with
              | E : check_blacklist _ = _ |- _ => rewrite E
              | E : blacklisted_response _ _ = _ |- _ => rewrite E
              end; cbn.
  all: done.
Qed.

(** X3. An exception leaves [decorated_view] in four cases only, each time
    unchanged: the [AssertionError] for an argument that is no
    [HttpRequest]; what [request.build_absolute_uri()] raises at line 111,
    unless it is an [AttributeError] or a [KeyError]; what evaluating
    [request.POST] or [request.GET] raises at lines 117 and 120; and what
    the wrapped view raises.  The first three happen before anything is
    called and leave the store alone.  The rejections by the method check,
    by a missing token or header, by the validator and by the blacklist are
    values, never exceptions.  (The validator, the blacklist lookup and
    [str()] of a [Verb] are taken to return.) *)
Theorem exceptions_that_leave_decorated_view request a s out s1 tr :
  gate request a s = (out, s1, tr) ->
  (forall e,
   out = Raise e ->
   (is_HttpRequest request = false /\ e = AssertionError /\
    tr = [] /\ s1 = s) \/
   (exists r, request = PyRequest r /\
      use_forgery_protection settings = true /\
      method_allowed r = true /\
      build_absolute_uri r = inr e /\ caught e = false /\
      tr = [] /\ s1 = s) \/
   (exists r, request = PyRequest r /\
      use_forgery_protection settings = true /\
      method_allowed r = true /\
      params_of r = inr e /\
      tr = [] /\ s1 = s) \/
   (exists r, request = PyRequest r /\
      last tr = Some (EvHandler r a (inr e)))) /\
  (forall r' a' e, EvHandler r' a' (inr e) ∈ tr -> out = Raise e) /\
  (forall r t e,
   request = PyRequest r ->
   use_forgery_protection settings = true ->
   method_allowed r = true ->
   TWILIO_AUTH_TOKEN = Some t ->
   build_absolute_uri r = inr e ->
   caught e = false ->
   out = Raise e).
Proof.
  intros H. split; [| split].
  - intros e He. subst out. paths H.
    + left. done.
    + right; left. eauto 10.
    + right; right; left. eauto 10.
    + right; right; right. destruct result; simplify_eq/=. eauto.
    + right; right; right. destruct result; simplify_eq/=. eauto.
    + right; right; right. destruct result; simplify_eq/=. eauto.
    + right; right; right. destruct result; simplify_eq/=. eauto.
  - intros r' a' e Hin. paths H.
    all: set_unfold; destruct_or?; simplify_eq; done.
  - intros r t e -> Hfp Hm Ht Hu Hc.
    rewrite (gate_uri_raises _ _ _ _ _ Hfp Hm Ht Hu Hc) in H.
    by simplify_eq.
Qed.

Lemma length_join_chars (m : string) :
  String.length (join ", " (chars m)) = (3 * String.length m - 2)%nat.
Proof.
  induction m as [| c [| d m] IH]; [reflexivity | reflexivity |].
  change (chars (String c (String d m)))
    with (String c EmptyString :: chars (String d m)).
  change (join ", " (String c EmptyString :: chars (String d m)))
    with (String c (String "," (String " " (join ", " (chars (String d m)))))).
  cbn [String.length] in *. lia.
Qed.

(** X4. The 405 of the method check carries an [Allow] header made of the
    request's own method, joined character by character (line 106 hands the
    method string to [HttpResponseNotAllowed], which joins what it is given
    with [", "]).  The header therefore never reads "GET, POST", and for a
    method of two or more characters it is not even the method. *)
Theorem the_allow_header_spells_the_method request a s :
  use_forgery_protection settings = true ->
  method_allowed request = false ->
  exists r,
    gate (PyRequest request) a s = (Normal (PyResponse r), s, []) /\
    status_code r = 405%Z /\
    headers r !! "Allow" = Some (join ", " (chars (method request))) /\
    headers r !! "Allow" <> Some "GET, POST" /\
    ((2 <= String.length (method request))%nat ->
     headers r !! "Allow" <> Some (method request)).
Proof.
  intros Hfp Hm. exists (HttpResponseNotAllowed (method request)).
  split; [by apply gate_method_not_allowed |]. split; [reflexivity |].
  assert (Hallow : headers (HttpResponseNotAllowed (method request)) !! "Allow"
                   = Some (join ", " (chars (method request))))
    by apply lookup_insert_eq.
  split; [exact Hallow |]. rewrite Hallow.
  pose proof (length_join_chars (method request)) as Hlen.
  split.
  - intros [= Heq]. rewrite Heq in Hlen. cbn in Hlen. lia.
  - intros Hge [= Heq]. rewrite Heq in Hlen. lia.
Qed.

Lemma gate_denied_path request a s pre r s1 :
  forgery_passed TWILIO_AUTH_TOKEN validate_sig settings request pre ->
  check_blacklist settings = true ->
  blacklisted_response request s = (Some r, s1) ->
  gate (PyRequest request) a s =
    (Normal (PyResponse r), s1, pre ++ [EvBlacklist request (Some r)]).
Proof.
  intros Hpre Hc Hb.
  destruct Hpre as [Hfp | t u g p Hfp Hm Ht Hu Hg Hp Hv].
  - rewrite gate_unprotected by done. by apply tail_denied.
  - rewrite (gate_good_signature _ _ _ _ _ _ _ Hfp Hm Ht Hu Hg Hp Hv).
    by rewrite (tail_denied _ _ _ _ _ Hc Hb).
Qed.

Lemma coerced_idempotent (v : PyVal Verb) :
  coerced str (coerced str v) = coerced str v.
Proof. by destruct v. Qed.

End GateProperties.

(** * Decorating a decorated view *)

Section Stacking.

Context {Verb : Type} (str : Verb -> string) {Store : Type}.
Variable TWILIO_AUTH_TOKEN : option string.
Variable validate_sig : string -> string -> gmap string string -> string -> bool.
Variable blacklisted_response : HttpRequestT -> Store -> option HttpResponseT * Store.
Variable f : HttpRequestT -> Args Verb -> Store -> (PyVal Verb + Exn) * Store.
Variable settings : Settings.

(** X5. When the blacklist lookup only reads the store, decorating a view
    twice gives every call the outcome and the final store of decorating it
    once: the outer checks decide as the inner ones do, and what the inner
    [decorated_view] returns (a response, or a value it passed through) is
    passed through by the outer one. *)
Theorem decorating_twice_changes_nothing request a s :
  (forall r s0, snd (blacklisted_response r s0) = s0) ->
  fst (decorated_view str TWILIO_AUTH_TOKEN validate_sig blacklisted_response
         (_twilio_function_view str TWILIO_AUTH_TOKEN validate_sig
            blacklisted_response f settings)
         settings request a s) =
  fst (decorated_view str TWILIO_AUTH_TOKEN validate_sig blacklisted_response
         f settings request a s).
Proof.
  intros Hro.
  pose proof (gate_takes_a_path str TWILIO_AUTH_TOKEN validate_sig
                blacklisted_response f settings request a s) as P.
  destruct (decorated_view str TWILIO_AUTH_TOKEN validate_sig
              blacklisted_response f settings request a s)
    as [[out s1] tr] eqn:H.
  inversion P; subst; clear P.
  - by rewrite gate_not_request.
  - by rewrite gate_method_not_allowed.
  - match goal with
    | X : _ \/ _ |- _ => destruct X as [Ht | [[e [Hu Hc]] | [u [Hu Hg]]]]
    end.
    + by rewrite gate_no_token.
    + by erewrite gate_uri_caught.
    + by erewrite gate_no_signature.
  - by erewrite gate_uri_raises.
  - by erewrite gate_params_raise.
  - by erewrite gate_bad_signature.
  - by erewrite gate_denied_path.
  - match goal with
    | Hmid : blacklist_passed _ _ _ _ _ _ |- _ =>
        assert (s0 = s) as ->
          by (inversion Hmid; subst; [done |];
              match goal with
              | E : blacklisted_response _ _ = _ |- _ =>
                  by rewrite <- (Hro request0 s), E
              end)
    end.
    destruct result as [v | e].
    + erewrite gate_view_path with (result := inl (coerced str v));
        [| done | done |].
      2: { unfold _twilio_function_view. by rewrite H. }
      cbn. by rewrite coerced_idempotent.
    + erewrite gate_view_path with (result := inr e); [| done | done |].
      2: { unfold _twilio_function_view. by rewrite H. }
      done.
Qed.

End Stacking.

(** * Properties of the verifier *)

Section VerifierProperties.

Variable keyed_hash_b64 : string -> string -> string.

Local Notation "'all_equal'" :=
  (fold_left (fun (acc : bool) (p : ascii * ascii) =>
                acc && Ascii.eqb (fst p) (snd p))).

Lemma all_equal_false (l : list (ascii * ascii)) : all_equal l false = false.
Proof. induction l as [| p l IH]; cbn; auto. Qed.

Lemma all_equal_true (a b : string) :
  String.length a = String.length b ->
  all_equal (combine (list_ascii_of_string a) (list_ascii_of_string b)) true
    = true <-> a = b.
Proof.
  revert b. induction a as [| x a IH]; intros [| y b] Hlen; cbn in *;
    try discriminate; [done |].
  destruct (Ascii.eqb x y) eqn:E.
  - apply Ascii.eqb_eq in E as ->. rewrite IH by lia.
    split; [by intros -> | by intros [=]].
  - rewrite all_equal_false. split; [done |].
    intros [= -> ->]. by rewrite Ascii.eqb_refl in E.
Qed.

(** The accumulating comparison decides equality of the two strings. *)
Lemma secure_compare_spec (a b : string) :
  Verifier.secure_compare a b = true <-> a = b.
Proof.
  unfold Verifier.secure_compare.
  destruct (Nat.eqb (String.length a) (String.length b)) eqn:E.
  - apply Nat.eqb_eq in E. by apply all_equal_true.
  - apply Nat.eqb_neq in E. split; [done |]. intros ->. by destruct E.
Qed.

Lemma mutate_changes (i : nat) (b c : ascii) (s : string) :
  String.get i s = Some b -> c <> b -> Verifier.mutate i c s <> s.
Proof.
  revert i. induction s as [| x s IH]; intros [| i] Hget Hne; cbn in *;
    try discriminate.
  - intros [= ->]. congruence.
  - intros [= Heq]. by eapply IH.
Qed.

(** C9, amended.  For a secret that is not empty, the verifier accepts the
    signature that the signing algorithm computes for the same secret, URL
    and parameters (a signature that is not empty, as a base64-encoded digest
    is); and for every secret it rejects that signature with any one byte
    replaced by a different one. *)
Theorem verifier_accepts_exactly_the_signature secret url params :
  (secret <> "" ->
   Verifier.sign keyed_hash_b64 secret url params <> "" ->
   Verifier.Verifier keyed_hash_b64 (Some secret) url params
     (Some (Verifier.sign keyed_hash_b64 secret url params)) = true) /\
  (forall i b c,
   String.get i (Verifier.sign keyed_hash_b64 secret url params) = Some b ->
   c <> b ->
   Verifier.Verifier keyed_hash_b64 (Some secret) url params
     (Some (Verifier.mutate i c
              (Verifier.sign keyed_hash_b64 secret url params)))
     = false).
Proof.
  unfold Verifier.Verifier. split.
  - intros Hs Hg. destruct secret; [done |]. cbn [Verifier.is_empty].
    destruct (Verifier.sign _ _ _ _) eqn:E; [done |].
    cbn [Verifier.is_empty]. by apply secure_compare_spec.
  - intros i b c Hget Hne.
    destruct (Verifier.is_empty secret); [done |].
    destruct (Verifier.is_empty _); [done |].
    apply not_true_is_false. rewrite secure_compare_spec. intros Heq.
    by eapply mutate_changes.
Qed.

End VerifierProperties.

(** * The properties at work on the example deployment *)

Example sms_post_is_handled :
  Demo.gate Demo.production (PyRequest Demo.sms_post) =
    (Normal (PyResponse Demo.twiml), ["hi"],
     [EvValidate "abc123" Demo.sms_url Demo.sms_params
        (Verifier.sign Demo.keyed_hash_b64 "abc123" Demo.sms_url Demo.sms_params)
        true;
      EvBlacklist Demo.sms_post None;
      EvHandler Demo.sms_post Demo.no_args (inl (PyText "<Response/>"))]).
Proof. vm_compute. reflexivity. Qed.

Example unsigned_put_is_not_allowed :
  Demo.gate Demo.production (PyRequest Demo.unsigned_put) =
    (Normal (PyResponse (HttpResponseNotAllowed "PUT")), [], []).
Proof. vm_compute. reflexivity. Qed.

Example unsigned_get_is_forbidden :
  Demo.gate Demo.production (PyRequest Demo.unsigned_get) =
    (Normal (PyResponse HttpResponseForbidden), [], []).
Proof. vm_compute. reflexivity. Qed.

Example forged_get_is_forbidden :
  Demo.gate Demo.production (PyRequest Demo.forged_get) =
    (Normal (PyResponse HttpResponseForbidden), [],
     [EvValidate "abc123" Demo.sms_url Demo.sms_params
        "bm90IGEgc2lnbmF0dXJl" false]).
Proof. vm_compute. reflexivity. Qed.

Example blacklisted_post_is_rejected :
  Demo.gate Demo.production (PyRequest Demo.blacklisted_post) =
    (Normal (PyResponse Demo.reject_response), [],
     [EvValidate "abc123" Demo.sms_url Demo.blacklisted_params
        (Verifier.sign Demo.keyed_hash_b64 "abc123" Demo.sms_url
           Demo.blacklisted_params)
        true;
      EvBlacklist Demo.blacklisted_post (Some Demo.reject_response)]).
Proof. vm_compute. reflexivity. Qed.

Example debug_put_is_handled :
  Demo.gate Demo.debug (PyRequest Demo.unsigned_put) =
    (Normal (PyResponse Demo.twiml), ["hi"],
     [EvBlacklist Demo.unsigned_put None;
      EvHandler Demo.unsigned_put Demo.no_args (inl (PyText "<Response/>"))]).
Proof. vm_compute. reflexivity. Qed.

Example debug_blacklisted_put_is_rejected :
  Demo.gate Demo.debug (PyRequest Demo.blacklisted_put) =
    (Normal (PyResponse Demo.reject_response), [],
     [EvBlacklist Demo.blacklisted_put (Some Demo.reject_response)]).
Proof. vm_compute. reflexivity. Qed.

(** C1 on the signed POST: validation, blacklist lookup, view, in this
    order. *)
Lemma checks_run_in_order_witness :
  Demo.gate Demo.production (PyRequest Demo.sms_post) =
    (Normal (PyResponse Demo.twiml), ["hi"],
     [EvValidate "abc123" Demo.sms_url Demo.sms_params
        (Verifier.sign Demo.keyed_hash_b64 "abc123" Demo.sms_url Demo.sms_params)
        true;
      EvBlacklist Demo.sms_post None;
      EvHandler Demo.sms_post Demo.no_args (inl (PyText "<Response/>"))]) /\
  increasing
    (map stage
       [EvValidate "abc123" Demo.sms_url Demo.sms_params
          (Verifier.sign Demo.keyed_hash_b64 "abc123" Demo.sms_url
             Demo.sms_params)
          true;
        EvBlacklist Demo.sms_post None;
        EvHandler Demo.sms_post Demo.no_args (inl (PyText "<Response/>"))])
    = true.
Proof.
  assert (H : Demo.gate Demo.production (PyRequest Demo.sms_post) =
    (Normal (PyResponse Demo.twiml), ["hi"],
     [EvValidate "abc123" Demo.sms_url Demo.sms_params
        (Verifier.sign Demo.keyed_hash_b64 "abc123" Demo.sms_url Demo.sms_params)
        true;
      EvBlacklist Demo.sms_post None;
      EvHandler Demo.sms_post Demo.no_args (inl (PyText "<Response/>"))]))
    by (vm_compute; reflexivity).
  split; [exact H |].
  exact (proj1 (checks_run_in_order _ _ _ _ _ _ _ _ _ _ _ _ H)).
Defined.

Example bad_host_get_raises :
  Demo.gate Demo.production (PyRequest Demo.bad_host_get) =
    (Raise (OtherException "DisallowedHost"), [], []).
Proof. vm_compute. reflexivity. Qed.

Example bad_body_post_raises :
  Demo.gate Demo.production (PyRequest Demo.bad_body_post) =
    (Raise (OtherException "MultiPartParserError"), [], []).
Proof. vm_compute. reflexivity. Qed.

(** C2 as stated fails on an unsigned PUT, where the method check answers
    first, with 405; and on an unsigned GET whose [Host] header is not
    allowed, where [request.build_absolute_uri()] raises before the header is
    looked up and the exception is not one that lines 113-114 catch. *)
Lemma missing_signature_is_not_always_forbidden :
  use_forgery_protection Demo.production = true /\
  (META Demo.unsigned_put !! "HTTP_X_TWILIO_SIGNATURE" = None /\
   Demo.gate Demo.production (PyRequest Demo.unsigned_put) =
     (Normal (PyResponse (HttpResponseNotAllowed "PUT")), [], []) /\
   status_code (HttpResponseNotAllowed "PUT") <> 403%Z) /\
  (META Demo.bad_host_get !! "HTTP_X_TWILIO_SIGNATURE" = None /\
   Demo.gate Demo.production (PyRequest Demo.bad_host_get) =
     (Raise (OtherException "DisallowedHost"), [], [])).
Proof.
  split; [reflexivity |]. split.
  - split; [vm_compute; reflexivity |].
    split; [exact unsigned_put_is_not_allowed | discriminate].
  - split; [vm_compute; reflexivity | exact bad_host_get_raises].
Qed.

(** C2, amended, on an unsigned GET. *)
Lemma missing_inputs_are_forbidden_witness :
  use_forgery_protection Demo.production = true /\
  method_allowed Demo.unsigned_get = true /\
  META Demo.unsigned_get !! "HTTP_X_TWILIO_SIGNATURE" = None /\
  (forall e, build_absolute_uri Demo.unsigned_get = inr e ->
             caught e = true) /\
  Demo.gate Demo.production (PyRequest Demo.unsigned_get) =
    (Normal (PyResponse HttpResponseForbidden), [], []) /\
  status_code HttpResponseForbidden = 403%Z.
Proof.
  assert (Hg : META Demo.unsigned_get !! "HTTP_X_TWILIO_SIGNATURE" = None)
    by (vm_compute; reflexivity).
  assert (Hu : forall e, build_absolute_uri Demo.unsigned_get = inr e ->
                         caught e = true)
    by (intros e He; simpl in He; discriminate He).
  split; [reflexivity |]. split; [reflexivity |]. split; [exact Hg |].
  split; [exact Hu |].
  exact (missing_inputs_are_forbidden Demo.str Demo.TWILIO_AUTH_TOKEN
           Demo.validate_sig Demo.blacklisted_response Demo.view
           Demo.production Demo.unsigned_get Demo.no_args []
           eq_refl eq_refl (or_intror (conj Hg Hu))).
Defined.

(** C3 on an unsigned PUT. *)
Lemma other_methods_are_not_allowed_witness :
  use_forgery_protection Demo.production = true /\
  method Demo.unsigned_put <> "GET" /\
  method Demo.unsigned_put <> "POST" /\
  Demo.gate Demo.production (PyRequest Demo.unsigned_put) =
    (Normal (PyResponse (HttpResponseNotAllowed (method Demo.unsigned_put))),
     [], []) /\
  status_code (HttpResponseNotAllowed (method Demo.unsigned_put)) = 405%Z.
Proof.
  assert (HG : method Demo.unsigned_put <> "GET") by (simpl; discriminate).
  assert (HP : method Demo.unsigned_put <> "POST") by (simpl; discriminate).
  split; [reflexivity |]. split; [exact HG |]. split; [exact HP |].
  exact (other_methods_are_not_allowed Demo.str Demo.TWILIO_AUTH_TOKEN
           Demo.validate_sig Demo.blacklisted_response Demo.view
           Demo.production Demo.unsigned_put Demo.no_args [] eq_refl HG HP).
Defined.

(** C4 on the example settings, which set no explicit value: in production
    the signed POST meets the validator first, under [DEBUG] the unsigned
    PUT goes straight to the blacklist lookup. *)
Lemma enforcement_follows_the_settings_witness :
  DJANGO_TWILIO_FORGERY_PROTECTION Demo.production = None /\
  verification_first
    [EvValidate "abc123" Demo.sms_url Demo.sms_params
       (Verifier.sign Demo.keyed_hash_b64 "abc123" Demo.sms_url
          Demo.sms_params)
       true;
     EvBlacklist Demo.sms_post None;
     EvHandler Demo.sms_post Demo.no_args (inl (PyText "<Response/>"))]
    = negb (DEBUG Demo.production) /\
  DJANGO_TWILIO_FORGERY_PROTECTION Demo.debug = None /\
  verification_first
    [EvBlacklist Demo.unsigned_put None;
     EvHandler Demo.unsigned_put Demo.no_args (inl (PyText "<Response/>"))]
    = negb (DEBUG Demo.debug).
Proof.
  split; [reflexivity |]. split.
  - exact (proj1 (proj2
      (enforcement_follows_the_settings Demo.str Demo.TWILIO_AUTH_TOKEN
         Demo.validate_sig Demo.blacklisted_response Demo.view
         Demo.production Demo.sms_post Demo.no_args [] _ _ _
         sms_post_is_handled)) eq_refl).
  - split; [reflexivity |].
    exact (proj1 (proj2
      (enforcement_follows_the_settings Demo.str Demo.TWILIO_AUTH_TOKEN
         Demo.validate_sig Demo.blacklisted_response Demo.view
         Demo.debug Demo.unsigned_put Demo.no_args [] _ _ _
         debug_put_is_handled)) eq_refl).
Defined.

(** C5 as stated fails on a blacklisted caller: with protection off the
    request reaches the blacklist check, and the view is not called. *)
Lemma unprotected_blacklisted_put_skips_the_view :
  use_forgery_protection Demo.debug = false /\
  Demo.gate Demo.debug (PyRequest Demo.blacklisted_put) =
    (Normal (PyResponse Demo.reject_response), [],
     [EvBlacklist Demo.blacklisted_put (Some Demo.reject_response)]) /\
  forall result,
    EvHandler Demo.blacklisted_put Demo.no_args result ∉
      [EvBlacklist (Verb:=Demo.Verb) Demo.blacklisted_put
         (Some Demo.reject_response)].
Proof.
  split; [reflexivity |].
  split; [exact debug_blacklisted_put_is_rejected |].
  intros result Hin. apply list_elem_of_singleton in Hin. discriminate Hin.
Qed.

(** C5, amended, on an unsigned PUT under [DEBUG]. *)
Lemma unprotected_requests_go_to_the_blacklist_witness :
  use_forgery_protection Demo.debug = false /\
  Demo.gate Demo.debug (PyRequest Demo.unsigned_put) =
    (Normal (PyResponse Demo.twiml), ["hi"],
     [EvBlacklist Demo.unsigned_put None;
      EvHandler Demo.unsigned_put Demo.no_args (inl (PyText "<Response/>"))]) /\
  forall e,
    e ∈ [EvBlacklist Demo.unsigned_put None;
         EvHandler Demo.unsigned_put Demo.no_args (inl (PyText "<Response/>"))] ->
    is_validate e = false.
Proof.
  assert (H : Demo.gate Demo.debug (PyRequest Demo.unsigned_put) =
    (Normal (PyResponse Demo.twiml), ["hi"],
     [EvBlacklist Demo.unsigned_put None;
      EvHandler Demo.unsigned_put Demo.no_args (inl (PyText "<Response/>"))]))
    by (vm_compute; reflexivity).
  split; [reflexivity |]. split; [exact H |].
  exact (proj1 (proj2
    (unprotected_requests_go_to_the_blacklist Demo.str
       Demo.TWILIO_AUTH_TOKEN Demo.validate_sig Demo.blacklisted_response
       Demo.view Demo.debug Demo.unsigned_put Demo.no_args [] _ _ _
       eq_refl H))).
Defined.

(** C6 on the forged GET: one validation, on [request.GET], then 403. *)
Lemma validator_gets_the_parameters_of_the_method_witness :
  use_forgery_protection Demo.production = true /\
  Demo.gate Demo.production (PyRequest Demo.forged_get) =
    (Normal (PyResponse HttpResponseForbidden), [],
     [EvValidate "abc123" Demo.sms_url Demo.sms_params
        "bm90IGEgc2lnbmF0dXJl" false]) /\
  (method Demo.forged_get = "GET" /\
     GET Demo.forged_get = inl Demo.sms_params \/
   method Demo.forged_get = "POST" /\
     POST Demo.forged_get = inl Demo.sms_params).
Proof.
  assert (H : Demo.gate Demo.production (PyRequest Demo.forged_get) =
    (Normal (PyResponse HttpResponseForbidden), [],
     [EvValidate "abc123" Demo.sms_url Demo.sms_params
        "bm90IGEgc2lnbmF0dXJl" false]))
    by (vm_compute; reflexivity).
  split; [reflexivity |]. split; [exact H |].
  exact (proj1
    (proj1
       (validator_gets_the_parameters_of_the_method Demo.str
          Demo.TWILIO_AUTH_TOKEN Demo.validate_sig Demo.blacklisted_response
          Demo.view Demo.production Demo.forged_get Demo.no_args [] _ _ _
          eq_refl H)
       "abc123" Demo.sms_url Demo.sms_params "bm90IGEgc2lnbmF0dXJl" false
       (list_elem_of_here _ _))).
Defined.

(** C7 on the signed POST: the view returns text, the call returns it as
    [application/xml]. *)
Lemma view_results_are_coerced_witness :
  Demo.gate Demo.production (PyRequest Demo.sms_post) =
    (Normal (PyResponse Demo.twiml), ["hi"],
     [EvValidate "abc123" Demo.sms_url Demo.sms_params
        (Verifier.sign Demo.keyed_hash_b64 "abc123" Demo.sms_url Demo.sms_params)
        true;
      EvBlacklist Demo.sms_post None;
      EvHandler Demo.sms_post Demo.no_args (inl (PyText "<Response/>"))]) /\
  exists r,
    Normal (Verb:=Demo.Verb) (PyResponse (Verb:=Demo.Verb) Demo.twiml) =
      Normal (PyResponse r) /\
    status_code r = 200%Z /\
    content r = Text "<Response/>" /\
    headers r !! "Content-Type" = Some "application/xml".
Proof.
  assert (H : Demo.gate Demo.production (PyRequest Demo.sms_post) =
    (Normal (PyResponse Demo.twiml), ["hi"],
     [EvValidate "abc123" Demo.sms_url Demo.sms_params
        (Verifier.sign Demo.keyed_hash_b64 "abc123" Demo.sms_url Demo.sms_params)
        true;
      EvBlacklist Demo.sms_post None;
      EvHandler Demo.sms_post Demo.no_args (inl (PyText "<Response/>"))]))
    by (vm_compute; reflexivity).
  split; [exact H |].
  exact (view_results_are_coerced Demo.str Demo.TWILIO_AUTH_TOKEN
           Demo.validate_sig Demo.blacklisted_response Demo.view
           Demo.production (PyRequest Demo.sms_post) Demo.no_args [] _ _ _
           Demo.sms_post Demo.no_args (PyText "<Response/>") H
           (list_elem_of_further _ _ _
              (list_elem_of_further _ _ _ (list_elem_of_here _ _)))).
Defined.

(** C8 as stated fails on a forged request: the check is enabled, and the
    blacklist is not asked. *)
Lemma forged_get_never_reaches_the_blacklist :
  check_blacklist Demo.production = true /\
  Demo.gate Demo.production (PyRequest Demo.forged_get) =
    (Normal (PyResponse HttpResponseForbidden), [],
     [EvValidate "abc123" Demo.sms_url Demo.sms_params
        "bm90IGEgc2lnbmF0dXJl" false]) /\
  forall r resp,
    EvBlacklist r resp ∉
      [EvValidate (Verb:=Demo.Verb) "abc123" Demo.sms_url Demo.sms_params
         "bm90IGEgc2lnbmF0dXJl" false].
Proof.
  split; [reflexivity |].
  split; [exact forged_get_is_forbidden |].
  intros r resp Hin. apply list_elem_of_singleton in Hin. discriminate Hin.
Qed.

(** C8, amended, on the signed POST of a blacklisted caller. *)
Lemma blacklist_is_asked_when_enabled_witness :
  Demo.gate Demo.production (PyRequest Demo.blacklisted_post) =
    (Normal (PyResponse Demo.reject_response), [],
     [EvValidate "abc123" Demo.sms_url Demo.blacklisted_params
        (Verifier.sign Demo.keyed_hash_b64 "abc123" Demo.sms_url
           Demo.blacklisted_params)
        true;
      EvBlacklist Demo.blacklisted_post (Some Demo.reject_response)]) /\
  check_blacklist Demo.production = true /\
  Demo.blacklisted_post = Demo.blacklisted_post /\
  Some Demo.reject_response =
    fst (Demo.blacklisted_response Demo.blacklisted_post []).
Proof.
  assert (H : Demo.gate Demo.production (PyRequest Demo.blacklisted_post) =
    (Normal (PyResponse Demo.reject_response), [],
     [EvValidate "abc123" Demo.sms_url Demo.blacklisted_params
        (Verifier.sign Demo.keyed_hash_b64 "abc123" Demo.sms_url
           Demo.blacklisted_params)
        true;
      EvBlacklist Demo.blacklisted_post (Some Demo.reject_response)]))
    by (vm_compute; reflexivity).
  split; [exact H |].
  exact (proj1 (proj2 (proj2
    (blacklist_is_asked_when_enabled Demo.str Demo.TWILIO_AUTH_TOKEN
       Demo.validate_sig Demo.blacklisted_response Demo.view Demo.production
       Demo.blacklisted_post Demo.no_args [] _ _ _ H)))
    Demo.blacklisted_post (Some Demo.reject_response)
    (list_elem_of_further _ _ _ (list_elem_of_here _ _))).
Defined.

(** C9 as stated fails on the empty secret: the verifier rejects the very
    signature computed under it. *)
Lemma the_empty_secret_never_verifies :
  Verifier.Verifier Demo.keyed_hash_b64 (Some "") Demo.sms_url Demo.sms_params
    (Some (Verifier.sign Demo.keyed_hash_b64 "" Demo.sms_url Demo.sms_params))
    = false.
Proof. reflexivity. Qed.

(** C9, amended, on the example request: the signature verifies, and no
    longer does with its first byte changed. *)
Lemma verifier_accepts_exactly_the_signature_witness :
  ("abc123" <> "" /\
   Verifier.sign Demo.keyed_hash_b64 "abc123" Demo.sms_url Demo.sms_params
     <> "" /\
   Verifier.Verifier Demo.keyed_hash_b64 (Some "abc123") Demo.sms_url
     Demo.sms_params
     (Some (Verifier.sign Demo.keyed_hash_b64 "abc123" Demo.sms_url
              Demo.sms_params)) = true) /\
  (String.get 0 (Verifier.sign Demo.keyed_hash_b64 "abc123" Demo.sms_url
                   Demo.sms_params) = Some "a"%char /\
   "x"%char <> "a"%char /\
   Verifier.Verifier Demo.keyed_hash_b64 (Some "abc123") Demo.sms_url
     Demo.sms_params
     (Some (Verifier.mutate 0 "x"
              (Verifier.sign Demo.keyed_hash_b64 "abc123" Demo.sms_url
                 Demo.sms_params))) = false).
Proof.
  assert (Hs : "abc123" <> "") by discriminate.
  assert (Hg : Verifier.sign Demo.keyed_hash_b64 "abc123" Demo.sms_url
                 Demo.sms_params <> "")
    by (vm_compute; discriminate).
  assert (Hget : String.get 0
            (Verifier.sign Demo.keyed_hash_b64 "abc123" Demo.sms_url
               Demo.sms_params) = Some "a"%char)
    by (vm_compute; reflexivity).
  assert (Hne : "x"%char <> "a"%char) by discriminate.
  split.
  - split; [exact Hs |]. split; [exact Hg |].
    exact (proj1
      (verifier_accepts_exactly_the_signature Demo.keyed_hash_b64 "abc123"
         Demo.sms_url Demo.sms_params) Hs Hg).
  - split; [exact Hget |]. split; [exact Hne |].
    exact (proj2
      (verifier_accepts_exactly_the_signature Demo.keyed_hash_b64 "abc123"
         Demo.sms_url Demo.sms_params) 0 "a"%char "x"%char Hget Hne).
Defined.

(** C10 on a string in place of the request. *)
Lemma non_requests_fail_the_assertion_witness :
  (forall r, PyText (Verb:=Demo.Verb) "request" <> PyRequest r) /\
  Demo.gate Demo.production (PyText "request") =
    (Raise AssertionError, [], []).
Proof.
  assert (H : forall r, PyText (Verb:=Demo.Verb) "request" <> PyRequest r)
    by (intros r; discriminate).
  split; [exact H |].
  exact (non_requests_fail_the_assertion Demo.str Demo.TWILIO_AUTH_TOKEN
           Demo.validate_sig Demo.blacklisted_response Demo.view
           Demo.production (PyText "request") Demo.no_args [] H).
Defined.

(** X1 on the signed POST. *)
Lemma accepted_requests_reach_the_view_witness :
  passes_forgery_protection Demo.TWILIO_AUTH_TOKEN Demo.validate_sig
    Demo.production Demo.sms_post = true /\
  denied Demo.blacklisted_response Demo.sms_post [] = false /\
  exists pre,
    Demo.gate Demo.production (PyRequest Demo.sms_post) =
      (outcome_of Demo.str
         (fst (Demo.view Demo.sms_post Demo.no_args
                 (store_before_view Demo.blacklisted_response Demo.production
                    Demo.sms_post []))),
       snd (Demo.view Demo.sms_post Demo.no_args
              (store_before_view Demo.blacklisted_response Demo.production
                 Demo.sms_post [])),
       pre ++
       [EvHandler Demo.sms_post Demo.no_args
          (fst (Demo.view Demo.sms_post Demo.no_args
                  (store_before_view Demo.blacklisted_response
                     Demo.production Demo.sms_post [])))]) /\
    forall e, e ∈ pre -> is_handler e = false.
Proof.
  assert (Hp : passes_forgery_protection Demo.TWILIO_AUTH_TOKEN
                 Demo.validate_sig Demo.production Demo.sms_post = true)
    by (vm_compute; reflexivity).
  assert (Hd : denied Demo.blacklisted_response Demo.sms_post [] = false)
    by (vm_compute; reflexivity).
  split; [exact Hp |]. split; [exact Hd |].
  exact (accepted_requests_reach_the_view Demo.str Demo.TWILIO_AUTH_TOKEN
           Demo.validate_sig Demo.blacklisted_response Demo.view
           Demo.production Demo.sms_post Demo.no_args [] Hp (or_intror Hd)).
Defined.

(** X2 on the signed POST. *)
Lemma the_view_is_called_once_with_the_original_arguments_witness :
  Demo.gate Demo.production (PyRequest Demo.sms_post) =
    (Normal (PyResponse Demo.twiml), ["hi"],
     [EvValidate "abc123" Demo.sms_url Demo.sms_params
        (Verifier.sign Demo.keyed_hash_b64 "abc123" Demo.sms_url Demo.sms_params)
        true;
      EvBlacklist Demo.sms_post None;
      EvHandler Demo.sms_post Demo.no_args (inl (PyText "<Response/>"))]) /\
  Demo.view Demo.sms_post Demo.no_args
    (store_before_view Demo.blacklisted_response Demo.production
       Demo.sms_post [])
  = (inl (PyText "<Response/>"), ["hi"]).
Proof.
  assert (H : Demo.gate Demo.production (PyRequest Demo.sms_post) =
    (Normal (PyResponse Demo.twiml), ["hi"],
     [EvValidate "abc123" Demo.sms_url Demo.sms_params
        (Verifier.sign Demo.keyed_hash_b64 "abc123" Demo.sms_url Demo.sms_params)
        true;
      EvBlacklist Demo.sms_post None;
      EvHandler Demo.sms_post Demo.no_args (inl (PyText "<Response/>"))]))
    by (vm_compute; reflexivity).
  split; [exact H |].
  exact (proj1 (proj2 (proj2
    (proj2
       (the_view_is_called_once_with_the_original_arguments Demo.str
          Demo.TWILIO_AUTH_TOKEN Demo.validate_sig Demo.blacklisted_response
          Demo.view Demo.production (PyRequest Demo.sms_post) Demo.no_args []
          _ _ _ H)
       Demo.sms_post Demo.no_args (inl (PyText "<Response/>"))
       (list_elem_of_further _ _ _
          (list_elem_of_further _ _ _ (list_elem_of_here _ _))))))).
Defined.

Example broken_view_raises :
  decorated_view Demo.str Demo.TWILIO_AUTH_TOKEN Demo.validate_sig
    Demo.blacklisted_response Demo.broken_view Demo.production
    (PyRequest Demo.sms_post) Demo.no_args [] =
    (Raise KeyError, [],
     [EvValidate "abc123" Demo.sms_url Demo.sms_params
        (Verifier.sign Demo.keyed_hash_b64 "abc123" Demo.sms_url Demo.sms_params)
        true;
      EvBlacklist Demo.sms_post None;
      EvHandler Demo.sms_post Demo.no_args (inr KeyError)]).
Proof. vm_compute. reflexivity. Qed.

(** X3 on two requests: a view that raises [KeyError] (it comes out,
    although lines 113-114 catch that class around the verification
    inputs), and a GET whose [Host] header is not allowed. *)
Lemma exceptions_that_leave_decorated_view_witness :
  (EvHandler Demo.sms_post Demo.no_args (inr KeyError) ∈
     [EvValidate (Verb:=Demo.Verb) "abc123" Demo.sms_url Demo.sms_params
        (Verifier.sign Demo.keyed_hash_b64 "abc123" Demo.sms_url
           Demo.sms_params)
        true;
      EvBlacklist Demo.sms_post None;
      EvHandler Demo.sms_post Demo.no_args (inr KeyError)] /\
   Raise (Verb:=Demo.Verb) (A:=PyVal Demo.Verb) KeyError = Raise KeyError) /\
  (use_forgery_protection Demo.production = true /\
   method_allowed Demo.bad_host_get = true /\
   Demo.TWILIO_AUTH_TOKEN = Some "abc123" /\
   build_absolute_uri Demo.bad_host_get =
     inr (OtherException "DisallowedHost") /\
   caught (OtherException "DisallowedHost") = false /\
   Raise (Verb:=Demo.Verb) (A:=PyVal Demo.Verb)
     (OtherException "DisallowedHost") =
   Raise (OtherException "DisallowedHost")).
Proof.
  assert (Hin : EvHandler Demo.sms_post Demo.no_args (inr KeyError) ∈
     [EvValidate (Verb:=Demo.Verb) "abc123" Demo.sms_url Demo.sms_params
        (Verifier.sign Demo.keyed_hash_b64 "abc123" Demo.sms_url
           Demo.sms_params)
        true;
      EvBlacklist Demo.sms_post None;
      EvHandler Demo.sms_post Demo.no_args (inr KeyError)])
    by exact (list_elem_of_further _ _ _
                (list_elem_of_further _ _ _ (list_elem_of_here _ _))).
  split.
  - split; [exact Hin |].
    exact (proj1 (proj2
      (exceptions_that_leave_decorated_view Demo.str Demo.TWILIO_AUTH_TOKEN
         Demo.validate_sig Demo.blacklisted_response Demo.broken_view
         Demo.production (PyRequest Demo.sms_post) Demo.no_args [] _ _ _
         broken_view_raises))
      Demo.sms_post Demo.no_args KeyError Hin).
  - split; [reflexivity |]. split; [reflexivity |]. split; [reflexivity |].
    split; [reflexivity |]. split; [reflexivity |].
    exact (proj2 (proj2
      (exceptions_that_leave_decorated_view Demo.str Demo.TWILIO_AUTH_TOKEN
         Demo.validate_sig Demo.blacklisted_response Demo.view
         Demo.production (PyRequest Demo.bad_host_get) Demo.no_args [] _ _ _
         bad_host_get_raises))
      Demo.bad_host_get "abc123" (OtherException "DisallowedHost")
      eq_refl eq_refl eq_refl eq_refl eq_refl eq_refl).
Defined.

(** X4 on the unsigned PUT: the header reads "P, U, T". *)
Lemma the_allow_header_spells_the_method_witness :
  use_forgery_protection Demo.production = true /\
  method_allowed Demo.unsigned_put = false /\
  exists r,
    Demo.gate Demo.production (PyRequest Demo.unsigned_put) =
      (Normal (PyResponse r), [], []) /\
    status_code r = 405%Z /\
    headers r !! "Allow" = Some (join ", " (chars (method Demo.unsigned_put))) /\
    headers r !! "Allow" <> Some "GET, POST" /\
    ((2 <= String.length (method Demo.unsigned_put))%nat ->
     headers r !! "Allow" <> Some (method Demo.unsigned_put)).
Proof.
  split; [reflexivity |]. split; [reflexivity |].
  exact (the_allow_header_spells_the_method Demo.str Demo.TWILIO_AUTH_TOKEN
           Demo.validate_sig Demo.blacklisted_response Demo.view
           Demo.production Demo.unsigned_put Demo.no_args []
           eq_refl eq_refl).
Defined.

Example put_allow_header :
  join ", " (chars "PUT") = "P, U, T".
Proof. reflexivity. Qed.

(** X5 on the example deployment, whose blacklist lookup leaves the store
    alone. *)
Lemma decorating_twice_changes_nothing_witness :
  (forall r s0, snd (Demo.blacklisted_response r s0) = s0) /\
  fst (decorated_view Demo.str Demo.TWILIO_AUTH_TOKEN Demo.validate_sig
         Demo.blacklisted_response
         (_twilio_function_view Demo.str Demo.TWILIO_AUTH_TOKEN
            Demo.validate_sig Demo.blacklisted_response Demo.view
            Demo.production)
         Demo.production (PyRequest Demo.sms_post) Demo.no_args []) =
  fst (Demo.gate Demo.production (PyRequest Demo.sms_post)).
Proof.
  assert (Hro : forall r s0, snd (Demo.blacklisted_response r s0) = s0).
  { intros r s0. unfold Demo.blacklisted_response.
    destruct (params_of r) as [params | e]; [| reflexivity].
    destruct (params !! "From") as [frm |]; [| reflexivity].
    destruct (String.eqb frm "+15550000000"); reflexivity. }
  split; [exact Hro |].
  exact (decorating_twice_changes_nothing Demo.str Demo.TWILIO_AUTH_TOKEN
           Demo.validate_sig Demo.blacklisted_response Demo.view
           Demo.production (PyRequest Demo.sms_post) Demo.no_args [] Hro).
Defined.
